(** * stataconda: the command interpreter of [main.py]

    A shallow embedding of the lexical and dispatch layer of
    [StatacondaGUI] (comment stripping, continuation joining, the [by]
    prefix rewrite, [_split_command_options], [_parse_options], the command
    registry and the routes of [execute_command]) and of [StoredEstimates],
    with the properties of the specification stated over it.

    Conventions.
    - A Python [str] is a [string]; a character is a code point below 256,
      so that [ascii] enumerates them.  [str.isspace], [str.lower] and the
      regular-expression classes [\s] and [\w] are written out on that
      range.
    - A [dict] is a [gmap]; the option dictionary is keyed by
      [option string] because [current_option] may hold [None].  Where
      the code reads the keys of a [dict] in their order, the list of the
      keys is kept next to the [gmap].
    - The statistics and plotting libraries are parameters of a section. *)

From Stdlib Require Import ZArith Lia Bool List Ascii String DecimalString.
From stdpp Require Import gmap strings list fin_maps.

Local Open Scope string_scope.
Local Open Scope Z_scope.

(** Let [simpl] compute the append of a string that starts with a
    constructor. *)
#[local] Arguments String.append !s1 s2 : simpl nomatch.

(* ===================================================================== *)
(** ** Python string primitives *)
(* ===================================================================== *)

Module Py.

Definition code (c : ascii) : N := N_of_ascii c.

(** The double-quote character, and the one-character string of it. *)
Definition dquote : ascii := "034"%char.
Definition Q : string := String dquote EmptyString.

(** [str.isspace] on one character, which is also the class [\s]:
    TAB..CR, FS..US, SPACE, NEL and NBSP. *)
Definition isspace (c : ascii) : bool :=
  let n := code c in
  ((9 <=? n) && (n <=? 13) || (28 <=? n) && (n <=? 32)
   || (n =? 133) || (n =? 160))%N.

(** Upper-case letters: A-Z, and U+00C0..U+00DE without the
    multiplication sign U+00D7. *)
Definition isupper (c : ascii) : bool :=
  let n := code c in
  ((65 <=? n) && (n <=? 90)
   || (192 <=? n) && (n <=? 222) && negb (n =? 215))%N.

Definition lower_char (c : ascii) : ascii :=
  if isupper c then ascii_of_N (code c + 32) else c.

(** [s.lower()] *)
Fixpoint lower (s : string) : string :=
  match s with
  | EmptyString => EmptyString
  | String c r => String (lower_char c) (lower r)
  end.

(** The class [\w] of [re] on [str] patterns: alphanumeric or underscore. *)
Definition isword (c : ascii) : bool :=
  let n := code c in
  ((48 <=? n) && (n <=? 57) || (65 <=? n) && (n <=? 90)
   || (97 <=? n) && (n <=? 122) || (n =? 95)
   || (n =? 170) || (n =? 178) || (n =? 179) || (n =? 181)
   || (n =? 185) || (n =? 186) || (188 <=? n) && (n <=? 190)
   || (192 <=? n) && negb (n =? 215) && negb (n =? 247))%N.

(** [s.lstrip()], [s.rstrip()], [s.strip()] *)
Fixpoint lstrip (s : string) : string :=
  match s with
  | EmptyString => EmptyString
  | String c r => if isspace c then lstrip r else s
  end.

Fixpoint rstrip (s : string) : string :=
  match s with
  | EmptyString => EmptyString
  | String c r =>
      match rstrip r with
      | EmptyString => if isspace c then EmptyString else String c EmptyString
      | r' => String c r'
      end
  end.

Definition strip (s : string) : string := rstrip (lstrip s).

(** [s[:i]] and [s[i:]] for [0 <= i] *)
Fixpoint take (i : nat) (s : string) : string :=
  match i, s with
  | S j, String c r => String c (take j r)
  | _, _ => EmptyString
  end.

Fixpoint drop (i : nat) (s : string) : string :=
  match i, s with
  | S j, String _ r => drop j r
  | _, _ => s
  end.

(** [s.startswith(p)] *)
Fixpoint startswith (p s : string) : bool :=
  match p, s with
  | EmptyString, _ => true
  | String a p', String b s' => Ascii.eqb a b && startswith p' s'
  | String _ _, EmptyString => false
  end.

(** [s.endswith(p)] for a one-character [p] *)
Fixpoint endswith_char (c : ascii) (s : string) : bool :=
  match s with
  | EmptyString => false
  | String a EmptyString => Ascii.eqb a c
  | String _ r => endswith_char c r
  end.

(** [s[:-1]] *)
Fixpoint drop_last (s : string) : string :=
  match s with
  | EmptyString => EmptyString
  | String _ EmptyString => EmptyString
  | String a r => String a (drop_last r)
  end.

(** [p in s] *)
Fixpoint contains (p s : string) : bool :=
  startswith p s
  || match s with
     | EmptyString => false
     | String _ r => contains p r
     end.

(** [c in s] for a character *)
Fixpoint contains_char (c : ascii) (s : string) : bool :=
  match s with
  | EmptyString => false
  | String a r => Ascii.eqb a c || contains_char c r
  end.

(** [s.split()]: the maximal runs of non-space characters. *)
Fixpoint split_ws_aux (cur : string) (s : string) : list string :=
  match s with
  | EmptyString => if String.eqb cur "" then [] else [cur]
  | String c r =>
      if isspace c
      then (if String.eqb cur "" then split_ws_aux "" r
            else cur :: split_ws_aux "" r)
      else split_ws_aux (cur ++ String c "") r
  end.

Definition split_ws (s : string) : list string := split_ws_aux "" s.

(** [s.split(sep)] for a one-character separator. *)
Fixpoint split_on_aux (sep : ascii) (cur : string) (s : string) : list string :=
  match s with
  | EmptyString => [cur]
  | String c r =>
      if Ascii.eqb c sep then cur :: split_on_aux sep "" r
      else split_on_aux sep (cur ++ String c "") r
  end.

Definition split_on (sep : ascii) (s : string) : list string :=
  split_on_aux sep "" s.

(** [sep.join(parts)] *)
Fixpoint join (sep : string) (parts : list string) : string :=
  match parts with
  | [] => ""
  | [p] => p
  | p :: ps => p ++ sep ++ join sep ps
  end.

(** Truthiness of a [str]. *)
Definition truthy (s : string) : bool := negb (String.eqb s "").

(** [str.isprintable] on one character: the printable ASCII characters,
    and U+00A1..U+00FF without the soft hyphen U+00AD. *)
Definition isprintable (c : ascii) : bool :=
  let n := code c in
  ((32 <=? n) && (n <=? 126) || (161 <=? n) && negb (n =? 173))%N.

(** A hexadecimal digit, in lower case. *)
Definition hexdigit (n : N) : ascii :=
  ascii_of_N (if (n <? 10)%N then 48 + n else 87 + n).

(** One character of [s] inside [repr(s)], for the quote character that
    [repr] has chosen: the quote and the backslash are escaped, TAB, LF
    and CR have their letters, any other character that is not printable
    is written as a backslash, an x and two hexadecimal digits. *)
Definition repr_char (quote c : ascii) : string :=
  let n := code c in
  if Ascii.eqb c quote || Ascii.eqb c "\" then String "\" (String c "")
  else if (n =? 9)%N then "\t"
  else if (n =? 10)%N then "\n"
  else if (n =? 13)%N then "\r"
  else if isprintable c then String c ""
  else String "\" (String "x" (String (hexdigit (n / 16))
                                 (String (hexdigit (n mod 16)) ""))).

Fixpoint repr_body (quote : ascii) (s : string) : string :=
  match s with
  | EmptyString => String quote ""
  | String c r => repr_char quote c ++ repr_body quote r
  end.

(** [repr(s)]: in single quotes, unless [s] has a single quote and no
    double quote. *)
Definition repr (s : string) : string :=
  let quote :=
    if contains_char "'" s && negb (contains_char dquote s)
    then dquote else "'"%char in
  String quote (repr_body quote s).

End Py.

(* ===================================================================== *)
(** ** [_split_command_options] *)
(* ===================================================================== *)

Import Py (dquote, Q).

(** The quote and depth bookkeeping of the loop body: a double quote
    toggles [in_quotes]; a parenthesis outside quotes moves [depth]. *)
Definition scan_char (c : ascii) (st : Z * bool) : Z * bool :=
  let '(depth, in_quotes) := st in
  if Ascii.eqb c dquote then (depth, negb in_quotes)
  else if Ascii.eqb c "(" && negb in_quotes then (depth + 1, in_quotes)
  else if Ascii.eqb c ")" && negb in_quotes then (depth - 1, in_quotes)
  else (depth, in_quotes).

(** The [for i, c in enumerate(command)] loop; [rest] is [command[i:]]. *)
Fixpoint split_loop (command : string) (i : nat) (depth : Z)
  (in_quotes : bool) (rest : string) : string * string :=
  match rest with
  | EmptyString => (Py.strip command, "")
  | String c rest' =>
      let '(depth', in_quotes') := scan_char c (depth, in_quotes) in
      if Ascii.eqb c "," && (depth' =? 0) && negb in_quotes'
      then (Py.strip (Py.take i command), Py.strip (Py.drop (S i) command))
      else split_loop command (S i) depth' in_quotes' rest'
  end.

Definition _split_command_options (command : string) : string * string :=
  if negb (Py.contains_char "," command) then (Py.strip command, "")
  else split_loop command 0 0 false command.

(* ===================================================================== *)
(** ** [_parse_options] *)
(* ===================================================================== *)

(** A value of the option dictionary: [True] or a string. *)
Inductive optval : Type :=
| VTrue
| VStr (s : string).

#[global] Instance optval_eq_dec : EqDecision optval.
Proof. solve_decision. Defined.

Abbreviation optdict := (gmap (option string) optval).

(** The local variables of the loop. *)
Record pstate : Type := PState {
  options : optdict;
  current : string;
  depth : Z;
  in_quotes : bool;
  current_option : option string
}.

Definition pstate0 : pstate :=
  {| options := ∅; current := ""; depth := 0; in_quotes := false;
     current_option := None |}.

Definition snoc (s : string) (c : ascii) : string := s ++ String c "".

(** One iteration of [for c in options_str]. *)
Definition parse_step (st : pstate) (c : ascii) : pstate :=
  if Ascii.eqb c dquote then
    {| options := options st; current := snoc (current st) c;
       depth := depth st; in_quotes := negb (in_quotes st);
       current_option := current_option st |}
  else if Ascii.eqb c "(" && negb (in_quotes st) then
    if depth st =? 0 then
      {| options := options st; current := "";
         depth := depth st + 1; in_quotes := in_quotes st;
         current_option := Some (Py.lower (Py.strip (current st))) |}
    else
      {| options := options st; current := current st;
         depth := depth st + 1; in_quotes := in_quotes st;
         current_option := current_option st |}
  else if Ascii.eqb c ")" && negb (in_quotes st) then
    if depth st - 1 =? 0 then
      {| options := <[current_option st := VStr (current st)]> (options st);
         current := ""; depth := depth st - 1; in_quotes := in_quotes st;
         current_option := None |}
    else
      {| options := options st; current := snoc (current st) c;
         depth := depth st - 1; in_quotes := in_quotes st;
         current_option := current_option st |}
  else if Ascii.eqb c " " && (depth st =? 0) && negb (in_quotes st) then
    if Py.truthy (current st) then
      {| options :=
           match current_option st with
           | None => <[Some (Py.lower (current st)) := VTrue]> (options st)
           | Some o => <[Some o := VStr (current st)]> (options st)
           end;
         current := ""; depth := depth st; in_quotes := in_quotes st;
         current_option := None |}
    else st
  else
    {| options := options st; current := snoc (current st) c;
       depth := depth st; in_quotes := in_quotes st;
       current_option := current_option st |}.

Fixpoint parse_loop (st : pstate) (s : string) : pstate :=
  match s with
  | EmptyString => st
  | String c r => parse_loop (parse_step st c) r
  end.

(** The code after the loop ("Handle the last option"). *)
Definition parse_finish (st : pstate) : optdict :=
  if Py.truthy (current st) then
    match current_option st with
    | None => <[Some (Py.lower (current st)) := VTrue]> (options st)
    | Some o => <[Some o := VStr (current st)]> (options st)
    end
  else options st.

Definition _parse_options (options_str : string) : optdict :=
  if negb (Py.truthy options_str) then ∅
  else parse_finish (parse_loop pstate0 options_str).

(* ===================================================================== *)
(** ** Regular expressions, as [re.match] runs them *)
(* ===================================================================== *)

(** The fragment of [re] that the three patterns of [main.py] use.
    Repetition only ever applies to a character class there, and the
    optional items are greedy.  Matching is by backtracking: the first
    alternative that lets the rest of the pattern succeed wins. *)
Module Re.

Inductive t : Type :=
| Chr (c : ascii)                 (* a literal character *)
| Cls (p : ascii -> bool)         (* one character of a class *)
| Star (p : ascii -> bool)        (* class*, greedy *)
| Plus (p : ascii -> bool)        (* class+, greedy *)
| Seq (a b : t)
| Alt (a b : t)                   (* a|b *)
| Opt (a : t)                     (* a?, greedy *)
| Grp (n : nat) (a : t)           (* capturing group number n *)
| Eol.                            (* $ *)

(** The groups that took part in the match, by number. *)
Abbreviation groups := (gmap nat string).

(** The continuation gets the text consumed, the text left and the
    groups so far. *)
Definition cont := string -> string -> groups -> option groups.

Fixpoint star (p : ascii -> bool) (s : string) (k : string -> string -> option groups)
  : option groups :=
  match s with
  | String c r =>
      if p c then
        match star p r (fun m rest => k (String c m) rest) with
        | Some g => Some g
        | None => k "" s
        end
      else k "" s
  | EmptyString => k "" s
  end.

Fixpoint lit (w : string) : t :=
  match w with
  | EmptyString => Star (fun _ => false)
  | String c EmptyString => Chr c
  | String c r => Seq (Chr c) (lit r)
  end.

Fixpoint run (r : t) (s : string) (g : groups) (k : cont) : option groups :=
  match r with
  | Chr c =>
      match s with
      | String a rest => if Ascii.eqb a c then k (String a "") rest g else None
      | EmptyString => None
      end
  | Cls p =>
      match s with
      | String a rest => if p a then k (String a "") rest g else None
      | EmptyString => None
      end
  | Star p => star p s (fun m rest => k m rest g)
  | Plus p =>
      match s with
      | String a rest =>
          if p a then star p rest (fun m rest' => k (String a m) rest' g)
          else None
      | EmptyString => None
      end
  | Seq a b =>
      run a s g (fun m1 s1 g1 => run b s1 g1 (fun m2 s2 g2 => k (m1 ++ m2) s2 g2))
  | Alt a b =>
      match run a s g k with
      | Some g' => Some g'
      | None => run b s g k
      end
  | Opt a =>
      match run a s g k with
      | Some g' => Some g'
      | None => k "" s g
      end
  | Grp n a => run a s g (fun m rest g' => k m rest (<[n := m]> g'))
  | Eol =>
      if String.eqb s "" || String.eqb s (String "010" "") then k "" s g else None
  end.

(** [re.match(pattern, s)]: anchored at the start, free at the end. *)
Definition match_ (r : t) (s : string) : option groups :=
  run r s ∅ (fun _ _ g => Some g).

(** The classes of the patterns. *)
Definition s_ : ascii -> bool := Py.isspace.
Definition w_ : ascii -> bool := Py.isword.
Definition ws_ (c : ascii) : bool := Py.isword c || Py.isspace c.  (* [\w\s] *)
Definition dot (c : ascii) : bool := negb (Ascii.eqb c "010").     (* . *)
Definition not_ (x : ascii) (c : ascii) : bool := negb (Ascii.eqb c x).

Fixpoint seq (l : list t) : t :=
  match l with
  | [] => Star (fun _ => false)
  | [r] => r
  | r :: l' => Seq r (seq l')
  end.

End Re.

(* ===================================================================== *)
(** ** [_strip_stata_comments] *)
(* ===================================================================== *)

(** The [while i < len(command)] loop; the argument is [command[i:]] and
    the value is what is still appended to [result]. *)
Fixpoint strip_comments_loop (in_quotes : bool) (s : string) : string :=
  match s with
  | EmptyString => ""
  | String c r =>
      if Ascii.eqb c dquote then String c (strip_comments_loop (negb in_quotes) r)
      else if negb in_quotes && Py.startswith "//" s then ""
      else String c (strip_comments_loop in_quotes r)
  end.

Definition _strip_stata_comments (command : string) : string :=
  if Py.startswith "*" (Py.strip command) || Py.startswith "//" (Py.strip command)
  then ""
  else Py.strip (strip_comments_loop false command).

(* ===================================================================== *)
(** ** The [by] prefix of [execute_command] *)
(* ===================================================================== *)

(** [r'^by[s]?\s+([\w\s]+):\s*(.+)$'] *)
Definition by_pattern : Re.t :=
  Re.seq [Re.lit "by"; Re.Opt (Re.Chr "s"); Re.Plus Re.s_;
          Re.Grp 1 (Re.Plus Re.ws_); Re.Chr ":"; Re.Star Re.s_;
          Re.Grp 2 (Re.Plus Re.dot); Re.Eol].

(** Group [n] of a match, for a group that took part in it. *)
Definition group (g : Re.groups) (n : nat) : string := default "" (g !! n).

(** Lines 2967-2982: the command that goes on to comment stripping. *)
Definition by_rewrite (cmd : string) : string :=
  match Re.match_ by_pattern cmd with
  | Some g =>
      let by_vars := Py.strip (group g 1) in
      let inner_cmd := Py.strip (group g 2) in
      if Py.startswith "egen " (Py.lower inner_cmd) then
        if negb (Py.contains ", by(" inner_cmd) then
          if Py.contains_char "," inner_cmd
          then inner_cmd ++ " by(" ++ by_vars ++ ")"
          else inner_cmd ++ ", by(" ++ by_vars ++ ")"
        else inner_cmd
      else inner_cmd
  | None => cmd
  end.

(* ===================================================================== *)
(** ** The command registry *)
(* ===================================================================== *)

(** The bound methods (and the one lambda) that [setup_command_registry]
    puts in the table. *)
Inductive handler : Type :=
| H_cmd_use | H_cmd_save | H_cmd_import | H_cmd_export | H_cmd_describe
| H_cmd_codebook | H_lambda_open_data_browser
| H_translate_reghdfe | H_translate_ivreghdfe
| H_cmd_summarize | H_cmd_tabulate | H_cmd_histogram | H_cmd_graph_bar
| H_cmd_scatter | H_cmd_generate | H_cmd_replace | H_cmd_drop | H_cmd_keep
| H_cmd_rename | H_cmd_recode | H_cmd_clonevar | H_cmd_label_variable
| H_cmd_append | H_cmd_merge | H_cmd_joinby | H_cmd_cross | H_cmd_anova
| H_cmd_areg | H_cmd_xtreg | H_cmd_fe | H_cmd_logit | H_cmd_probit
| H_cmd_logistic | H_cmd_poisson | H_cmd_nbreg | H_cmd_tobit | H_cmd_intreg
| H_cmd_ivregress | H_cmd_xtset | H_cmd_xtlogit | H_cmd_xtprobit
| H_cmd_xtpoisson | H_cmd_xtabond | H_cmd_xtdpdsys | H_cmd_tsset
| H_cmd_arima | H_cmd_arch | H_cmd_var | H_cmd_vec | H_cmd_newey
| H_cmd_binscatter | H_cmd_coefplot | H_cmd_lgraph | H_cmd_hist | H_cmd_do
| H_cmd_egen | H_cmd_estout | H_cmd_eststo | H_cmd_esttab | H_cmd_list
| H_cmd_collapse | H_cmd_reshape | H_cmd_sort | H_cmd_edit | H_cmd_bash
| H_cmd_browse.

#[global] Instance handler_eq_dec : EqDecision handler.
Proof. solve_decision. Defined.

(** The entries of the dict display, in source order. *)
Definition registry_entries : list (string * handler) :=
  [ ("use", H_cmd_use); ("save", H_cmd_save); ("import", H_cmd_import);
    ("export", H_cmd_export); ("describe", H_cmd_describe);
    ("codebook", H_cmd_codebook);
    ("browse", H_lambda_open_data_browser);
    ("bro", H_lambda_open_data_browser);
    ("reghdfe", H_translate_reghdfe); ("reg", H_translate_reghdfe);
    ("regress", H_translate_reghdfe);
    ("ivreghdfe", H_translate_ivreghdfe); ("ivreg", H_translate_ivreghdfe);
    ("ivregress", H_translate_ivreghdfe);
    ("summarize", H_cmd_summarize); ("su", H_cmd_summarize);
    ("tabulate", H_cmd_tabulate); ("histogram", H_cmd_histogram);
    ("graph", H_cmd_graph_bar); ("scatter", H_cmd_scatter);
    ("generate", H_cmd_generate); ("gen", H_cmd_generate);
    ("g", H_cmd_generate); ("replace", H_cmd_replace); ("drop", H_cmd_drop);
    ("keep", H_cmd_keep); ("rename", H_cmd_rename); ("ren", H_cmd_rename);
    ("recode", H_cmd_recode); ("clonevar", H_cmd_clonevar);
    ("label", H_cmd_label_variable); ("append", H_cmd_append);
    ("merge", H_cmd_merge); ("joinby", H_cmd_joinby); ("cross", H_cmd_cross);
    ("anova", H_cmd_anova); ("areg", H_cmd_areg); ("xtreg", H_cmd_xtreg);
    ("fe", H_cmd_fe); ("logit", H_cmd_logit); ("probit", H_cmd_probit);
    ("logistic", H_cmd_logistic); ("poisson", H_cmd_poisson);
    ("nbreg", H_cmd_nbreg); ("tobit", H_cmd_tobit); ("intreg", H_cmd_intreg);
    ("control_function", H_cmd_ivregress); ("xtset", H_cmd_xtset);
    ("xtlogit", H_cmd_xtlogit); ("xtprobit", H_cmd_xtprobit);
    ("xtpoisson", H_cmd_xtpoisson); ("xtabond", H_cmd_xtabond);
    ("xtdpdsys", H_cmd_xtdpdsys); ("tsset", H_cmd_tsset);
    ("arima", H_cmd_arima); ("arch", H_cmd_arch); ("var", H_cmd_var);
    ("vec", H_cmd_vec); ("newey", H_cmd_newey);
    ("binscatter", H_cmd_binscatter); ("coefplot", H_cmd_coefplot);
    ("lgraph", H_cmd_lgraph); ("hist", H_cmd_hist); ("do", H_cmd_do);
    ("egen", H_cmd_egen); ("estout", H_cmd_estout); ("eststo", H_cmd_eststo);
    ("esttab", H_cmd_esttab); ("list", H_cmd_list);
    ("collapse", H_cmd_collapse); ("reshape", H_cmd_reshape);
    ("sort", H_cmd_sort); ("edit", H_cmd_edit); ("bash", H_cmd_bash);
    ("browse", H_cmd_browse) ].

(** A dict display keeps the last value of a repeated key. *)
Definition dict_of {V} (l : list (string * V)) : gmap string V :=
  fold_left (fun m kv => <[kv.1 := kv.2]> m) l ∅.

Definition setup_command_registry : gmap string handler :=
  <["egen" := H_cmd_egen]> (dict_of registry_entries).

(* ===================================================================== *)
(** ** The routes of [execute_command] *)
(* ===================================================================== *)

(** What the [if]/[elif] chain of the [try] block does with
    [exec_command]: which collaborator runs, and on which text. *)
Inductive route : Type :=
| RShell (bash_command : string)          (* '!' : subprocess *)
| RPython (python_command : string)       (* '>' : exec in _python_context *)
| RBash (bash_command : string)           (* 'bash ' : subprocess *)
| RCd (directory : string)                (* 'cd ' : os.chdir *)
| RDirect (command : string)              (* 'pwd', 'ls' : subprocess *)
| RHandler (h : handler) (command : string) (* handler(exec_command) *)
| RFallback (command : string)            (* exec in _python_context *)
| RIndexError.                            (* split()[0] on no token *)

Definition dispatch (command_registry : gmap string handler)
  (exec_command : string) : route :=
  if Py.startswith "!" exec_command then
    RShell (Py.strip (Py.drop 1 exec_command))
  else if Py.startswith ">" exec_command then
    RPython (Py.strip (Py.drop 1 exec_command))
  else if Py.startswith "bash " exec_command then
    RBash (Py.drop 5 exec_command)
  else if Py.startswith "cd " exec_command then
    RCd (Py.strip (Py.drop 3 exec_command))
  else if String.eqb exec_command "pwd" || String.eqb exec_command "ls" then
    RDirect exec_command
  else
    match Py.split_ws exec_command with
    | [] => RIndexError
    | w :: _ =>
        let cmd_name := Py.lower w in
        match command_registry !! cmd_name with
        | Some handler => RHandler handler exec_command
        | None => RFallback exec_command
        end
    end.

(** Whether a route consults the keyword table. *)
Definition consults_table (r : route) : bool :=
  match r with
  | RHandler _ _ | RFallback _ | RIndexError => true
  | _ => false
  end.

(* ===================================================================== *)
(** ** [execute_command] *)
(* ===================================================================== *)

Definition newline : ascii := "010"%char.

(** Lines 2939-2955: the non-blank physical lines, stripped, with the
    lines that end in a backslash joined to the next one. *)
Definition raw_commands (command : string) : list string :=
  map Py.strip
      (List.filter (fun cmd => Py.truthy (Py.strip cmd))
                   (Py.split_on newline command)).

Fixpoint join_continuations (current_cmd : list string) (raw : list string)
  : list string :=
  match raw with
  | [] =>
      match current_cmd with
      | [] => []
      | _ => [Py.join " " current_cmd]
      end
  | cmd :: raw' =>
      if Py.endswith_char "\" cmd
      then join_continuations
             (current_cmd ++ [Py.strip (Py.drop_last cmd)]) raw'
      else Py.join " " (current_cmd ++ [cmd]) :: join_continuations [] raw'
  end.

Definition processed_commands (command : string) : list string :=
  join_continuations [] (raw_commands command).

Section Session.

(** Everything the collaborators own: the dataset, the scripting
    context, the stored estimates, the working directory. *)
Variable World : Type.

(** What running a route does to it, with the text it yields; [inl] is
    text that is reported with [OUTPUT], [inr] text of a caught
    exception, reported with [ERROR].  This covers the runs in which the
    route returns or raises an [Exception], and in which the scripting
    code leaves the window itself alone: [exec] runs with the window
    under the name [gui] in its context, and neither a snippet that
    changes [command_history] or the results window through that name
    nor one that raises [SystemExit] is a [perform] of this type. *)
Variable perform : route -> World -> World * (string + string).

Record session : Type := Session {
  world : World;
  results_window : list string;
  command_history : list string;   (* also the items of history_list *)
  console : list string            (* what print() wrote *)
}.

(** The body of [for cmd in processed_commands]. *)
Definition execute_one (reg : gmap string handler) (s : session)
  (cmd : string) : session :=
  let s1 :=
    {| world := world s;
       results_window := results_window s ++ [cmd];
       command_history := command_history s ++ [cmd];
       console := console s ++ ["[COMMAND] " ++ cmd] |} in
  let cmd := by_rewrite cmd in
  let exec_command := _strip_stata_comments cmd in
  if negb (Py.truthy exec_command) then s1
  else
    let '(w, out) := perform (dispatch reg exec_command) (world s1) in
    match out with
    | inl output =>
        {| world := w;
           results_window := results_window s1 ++ [output; ""];
           command_history := command_history s1;
           console := console s1 ++ ["[OUTPUT] " ++ output] |}
    | inr error_msg =>
        {| world := w;
           results_window := results_window s1 ++ [error_msg; ""];
           command_history := command_history s1;
           console := console s1 ++ ["[ERROR] " ++ error_msg] |}
    end.

(** [execute_command] on the text of the command prompt. *)
Definition execute_command (reg : gmap string handler) (s : session)
  (prompt_text : string) : session :=
  let command := Py.strip prompt_text in
  if negb (Py.truthy command) then s
  else fold_left (execute_one reg) (processed_commands command) s.

End Session.

Arguments Session {World}.
Arguments world {World}.
Arguments results_window {World}.
Arguments command_history {World}.
Arguments console {World}.
Arguments execute_one {World}.
Arguments execute_command {World}.

(* ===================================================================== *)
(** ** [class StoredEstimates] *)
(* ===================================================================== *)

Module StoredEstimates.
Section WithModel.

(** The fitted-result object of the statistics library. *)
Variable Model : Type.

(** The dict that [store] builds for one estimate. *)
Record estimate : Type := Estimate {
  model : Model;
  model_type : string;               (* key 'type' *)
  depvar : string;
  indepvars : list string;
  est_options : optdict;             (* key 'options' *)
  timestamp : Z;
  stats : gmap string Z
}.

(** The attributes of the class.  A [dict] keeps its keys in the order in
    which they were first assigned; [order] is that list of the keys of
    [estimates], which is what [estimates.keys()] yields. *)
Record t : Type := Make {
  estimates : gmap string estimate;
  order : list string;
  current_name : option string
}.

(** [__init__] *)
Definition init : t :=
  {| estimates := ∅; order := []; current_name := None |}.

(** [store]; [now] is the reading of [pd.Timestamp.now()], and
    [options or {}] turns a missing dictionary into the empty one.  An
    assignment to a key that is there keeps the place of the key; a new
    key goes to the end. *)
Definition store (now : Z) (self : t) (name : string) (m : Model)
  (mtype : string) (dep : string) (indep : list string)
  (opts : option optdict) : t :=
  {| estimates :=
       <[name := {| model := m; model_type := mtype; depvar := dep;
                    indepvars := indep; est_options := default ∅ opts;
                    timestamp := now; stats := ∅ |}]> (estimates self);
     order :=
       if bool_decide (is_Some (estimates self !! name)) then order self
       else order self ++ [name];
     current_name := Some name |}.

(** [list]: the stored names, in the order of the [dict]. *)
Definition list_ (self : t) : list string := order self.

(** [get]: [dict.get], so [None] for a name that is not stored. *)
Definition get (self : t) (name : string) : option estimate :=
  estimates self !! name.

Definition drop (self : t) (name : string) : t :=
  {| estimates := delete name (estimates self);
     order := List.filter (fun k => negb (String.eqb k name)) (order self);
     current_name := current_name self |}.

Definition clear (self : t) : t := init.

Definition add_stat (self : t) (name stat_name : string) (value : Z) : t :=
  {| estimates :=
       alter (fun e =>
                {| model := model e; model_type := model_type e;
                   depvar := depvar e; indepvars := indepvars e;
                   est_options := est_options e; timestamp := timestamp e;
                   stats := <[stat_name := value]> (stats e) |})
             name (estimates self);
     order := order self;
     current_name := current_name self |}.

(** [__contains__] *)
Definition contains (self : t) (name : string) : bool :=
  bool_decide (is_Some (estimates self !! name)).

End WithModel.

Arguments Estimate {Model}.
Arguments model {Model}.
Arguments model_type {Model}.
Arguments depvar {Model}.
Arguments indepvars {Model}.
Arguments est_options {Model}.
Arguments timestamp {Model}.
Arguments stats {Model}.
Arguments Make {Model}.
Arguments estimates {Model}.
Arguments order {Model}.
Arguments current_name {Model}.
Arguments init {Model}.
Arguments store {Model}.
Arguments list_ {Model}.
Arguments get {Model}.
Arguments drop {Model}.
Arguments clear {Model}.
Arguments add_stat {Model}.
Arguments contains {Model}.

End StoredEstimates.

(* ===================================================================== *)
(** ** The estimation and post-estimation handlers *)
(* ===================================================================== *)

(** The outcome of a block of Python code: a value, or an exception [e]
    carried as [str(e)]. *)
Inductive py_result (A : Type) : Type :=
| Return (a : A)
| Raise (msg : string).

Arguments Return {A}.
Arguments Raise {A}.

(** [r'(reghdfe|reg|regress)\s+(\w+)\s+([^,]+)(?:,\s*absorb\(([^)]+)\))?(?:\s*cluster\(([^)]+)\))?'] *)
Definition reghdfe_pattern : Re.t :=
  Re.seq [Re.Grp 1 (Re.Alt (Re.lit "reghdfe") (Re.Alt (Re.lit "reg") (Re.lit "regress")));
          Re.Plus Re.s_; Re.Grp 2 (Re.Plus Re.w_); Re.Plus Re.s_;
          Re.Grp 3 (Re.Plus (Re.not_ ","));
          Re.Opt (Re.seq [Re.Chr ","; Re.Star Re.s_; Re.lit "absorb(";
                          Re.Grp 4 (Re.Plus (Re.not_ ")")); Re.Chr ")"]);
          Re.Opt (Re.seq [Re.Star Re.s_; Re.lit "cluster(";
                          Re.Grp 5 (Re.Plus (Re.not_ ")")); Re.Chr ")"])].

(** [r'ivreghdfe\s+(\w+)\s+\((\w+)\s*=\s*(\w+)\)(?:\s+(\w+))?(?:,\s*absorb\(([^)]+)\))?(?:\s*cluster\(([^)]+)\))?'] *)
Definition ivreghdfe_pattern : Re.t :=
  Re.seq [Re.lit "ivreghdfe"; Re.Plus Re.s_; Re.Grp 1 (Re.Plus Re.w_);
          Re.Plus Re.s_; Re.Chr "("; Re.Grp 2 (Re.Plus Re.w_); Re.Star Re.s_;
          Re.Chr "="; Re.Star Re.s_; Re.Grp 3 (Re.Plus Re.w_); Re.Chr ")";
          Re.Opt (Re.Seq (Re.Plus Re.s_) (Re.Grp 4 (Re.Plus Re.w_)));
          Re.Opt (Re.seq [Re.Chr ","; Re.Star Re.s_; Re.lit "absorb(";
                          Re.Grp 5 (Re.Plus (Re.not_ ")")); Re.Chr ")"]);
          Re.Opt (Re.seq [Re.Star Re.s_; Re.lit "cluster(";
                          Re.Grp 6 (Re.Plus (Re.not_ ")")); Re.Chr ")"])].

(** [command.split(',', 1)]: the text before the first comma, and the text
    after it when there is one. *)
Fixpoint split_comma1 (s : string) : string * option string :=
  match s with
  | EmptyString => ("", None)
  | String c r =>
      if Ascii.eqb c "," then ("", Some r)
      else let '(a, b) := split_comma1 r in (String c a, b)
  end.

(** What [translate_ivreghdfe] returns: the pair
    [(None, "Invalid ivreghdfe command format")] or a text. *)
Inductive iv_value : Type :=
| IvPair (msg : string)
| IvText (text : string).

Section Handlers.

Variable Model : Type.
(** A column of the data frame (a pandas Series). *)
Variable Column : Type.

Abbreviation dataset := (gmap string Column).
Abbreviation estimate := (StoredEstimates.estimate Model).

(** The attributes of [StatacondaGUI] that the handlers below touch. *)
Record gui : Type := Gui {
  _df : dataset;
  _stored_estimates : StoredEstimates.t Model;
  _lastreg : option Model
}.

(** [pd.to_numeric(col, errors='coerce')] *)
Variable to_numeric : Column -> Column.

(** Lines 772-796 of [translate_reghdfe], run on the numeric copy: the
    dummy columns, [X] and [y], the mask and [sm.OLS(...).fit()]. *)
Variable ols_fit :
  dataset -> string -> list string -> option (list string) -> py_result Model.

(** Lines 803-840, still under the [try]: the report text, made from the
    attributes of the result ([fvalue], [params], [bse], [conf_int()] and
    so on) with format specifications; any of these may raise. *)
Variable ols_report :
  Model -> dataset -> string -> list string ->
  option (list string) -> option (list string) -> py_result string.

(** [for var in [dep_var] + indep_vars: df[var] = pd.to_numeric(df[var], ...)]
    on the copy [df]; a name that is no column raises [KeyError(var)],
    and [str] of a [KeyError] is the [repr] of its argument. *)
Fixpoint numeric_loop (df : dataset) (vars : list string) : py_result dataset :=
  match vars with
  | [] => Return df
  | var :: vars' =>
      match df !! var with
      | None => Raise (Py.repr var)
      | Some col => numeric_loop (<[var := to_numeric col]> df) vars'
      end
  end.

(** [absorb_vars.split()] under [if absorb_vars:]. *)
Definition split_group (o : option string) : option (list string) :=
  match o with
  | Some s => if Py.truthy s then Some (Py.split_ws s) else None
  | None => None
  end.

Definition reghdfe_usage : string :=
  "Usage: reghdfe <depvar> <indepvars> [, absorb(varlist) cluster(varlist)]".

(** [translate_reghdfe]; [now] is the clock reading that [store] takes.
    The three assignments of lines 799-801 come before the report and
    under the same [try]: when the report raises, the handler answers
    with the error text and the assignments stay. *)
Definition translate_reghdfe (now : Z) (self : gui) (command : string)
  : gui * string :=
  match Re.match_ reghdfe_pattern command with
  | None => (self, reghdfe_usage)
  | Some g =>
      let dep_var := group g 2 in
      let indep_vars := Py.split_ws (group g 3) in
      let absorb_vars := split_group (g !! 4%nat) in
      let cluster_vars := split_group (g !! 5%nat) in
      (* try: *)
      match numeric_loop (_df self) (dep_var :: indep_vars) with
      | Raise e => (self, "Error: " ++ e)
      | Return df =>
          match ols_fit df dep_var indep_vars absorb_vars with
          | Raise e => (self, "Error: " ++ e)
          | Return results =>
              let se :=
                StoredEstimates.store now (_stored_estimates self) "lastreg"
                  results "ols" dep_var indep_vars None in
              let self' :=
                {| _df := _df self;
                   _stored_estimates :=
                     {| StoredEstimates.estimates := StoredEstimates.estimates se;
                        StoredEstimates.order := StoredEstimates.order se;
                        StoredEstimates.current_name := Some "lastreg" |};
                   _lastreg := Some results |} in
              match ols_report results df dep_var indep_vars
                      absorb_vars cluster_vars with
              | Return text => (self', text)
              | Raise e => (self', "Error: " ++ e)
              end
          end
      end
  end.

(** Lines 860-867 of [translate_ivreghdfe]: the copy with the dummy
    columns of the absorbed variables.  This runs before the [try], so
    an exception leaves the handler. *)
Variable iv_dummies : dataset -> option (list string) -> py_result dataset.

(** Lines 869-993, inside the [try]: the two-stage fit and the report. *)
Variable iv_fit : dataset -> Re.groups -> py_result (Model * string).

Definition translate_ivreghdfe (now : Z) (self : gui) (command : string)
  : gui * py_result iv_value :=
  match Re.match_ ivreghdfe_pattern command with
  | None => (self, Return (IvPair "Invalid ivreghdfe command format"))
  | Some g =>
      let dep_var := group g 1 in
      let endog_var := group g 2 in
      let exog_var := g !! 4%nat in
      let absorb_vars := split_group (g !! 5%nat) in
      match iv_dummies (_df self) absorb_vars with
      | Raise e => (self, Raise e)
      | Return df =>
          (* try: *)
          match iv_fit df g with
          | Raise e => (self, Return (IvText ("Error: " ++ e)))
          | Return (results, text) =>
              let indep :=
                match exog_var with
                | Some x => if Py.truthy x then [endog_var; x] else [endog_var]
                | None => [endog_var]
                end in
              let se :=
                StoredEstimates.store now (_stored_estimates self) "lastreg"
                  results "iv" dep_var indep None in
              ({| _df := _df self;
                  _stored_estimates :=
                    {| StoredEstimates.estimates := StoredEstimates.estimates se;
                       StoredEstimates.order := StoredEstimates.order se;
                       StoredEstimates.current_name := Some "lastreg" |};
                  _lastreg := Some results |},
               Return (IvText text))
          end
      end
  end.

(** *** [cmd_esttab] *)

(** Lines 2660-2669 and 2680-2769: the option words and the table. *)
Variable esttab_table : list (string * estimate) -> string -> string.

(** The loop of lines 2672-2678: every name, or the first one missing. *)
Fixpoint esttab_resolve (se : StoredEstimates.t Model) (names : list string)
  : list (string * estimate) + string :=
  match names with
  | [] => inl []
  | name :: names' =>
      match StoredEstimates.get se name with
      | Some est =>
          match esttab_resolve se names' with
          | inl l => inl ((name, est) :: l)
          | inr missing => inr missing
          end
      | None => inr name
      end
  end.

Definition cmd_esttab (self : gui) (command : string) : string :=
  let '(main_part, rest) := split_comma1 command in
  let options_str := default "" rest in
  let parts := Py.split_ws main_part in
  let estimate_names :=
    if decide (1 < length parts)%nat then tail parts
    else StoredEstimates.order (_stored_estimates self) in
  match estimate_names with
  | [] => "Error: No estimates to display. Run regressions and store them with eststo first."
  | _ =>
      match esttab_resolve (_stored_estimates self) estimate_names with
      | inr name => "Error: Estimate '" ++ name ++ "' not found"
      | inl ests => esttab_table ests options_str
      end
  end.

(** *** [cmd_coefplot] *)

(** The words after the keyword that have neither [=] nor [(]. *)
Definition coefplot_names (command : string) : list string :=
  List.filter
    (fun part => negb (Py.contains_char "=" part || Py.contains_char "(" part))
    (tail (Py.split_ws command)).

(** [self._stored_estimates.current_name or 'lastreg'] *)
Definition current_or_lastreg (se : StoredEstimates.t Model) : string :=
  match StoredEstimates.current_name se with
  | Some n => if Py.truthy n then n else "lastreg"
  | None => "lastreg"
  end.

(** Lines 2818-2822: the models of the names that are stored. *)
Fixpoint coefplot_models (se : StoredEstimates.t Model) (names : list string)
  : list Model :=
  match names with
  | [] => []
  | name :: names' =>
      match StoredEstimates.get se name with
      | Some est => StoredEstimates.model est :: coefplot_models se names'
      | None => coefplot_models se names'
      end
  end.

(** [cmd_coefplot]: the text returned, and what is drawn.  The loop
    [for i, model in enumerate(models)] draws each model under the label
    [model_names[i]]. *)
Definition cmd_coefplot (self : gui) (command : string)
  : string * list (Model * string) :=
  let model_names := coefplot_names command in
  let model_names :=
    match model_names with
    | [] => [current_or_lastreg (_stored_estimates self)]
    | _ => model_names
    end in
  match coefplot_models (_stored_estimates self) model_names with
  | [] => ("No stored models found. Run regressions first.", [])
  | models => ("Coefficient plot displayed.", combine models model_names)
  end.

End Handlers.

Arguments Gui {Model Column}.
Arguments _df {Model Column}.
Arguments _stored_estimates {Model Column}.
Arguments _lastreg {Model Column}.
Arguments translate_reghdfe {Model Column}.
Arguments translate_ivreghdfe {Model Column}.
Arguments numeric_loop {Column}.
Arguments split_group : clear implicits.
Arguments cmd_esttab {Model Column}.
Arguments esttab_resolve {Model}.
Arguments cmd_coefplot {Model Column}.
Arguments coefplot_models {Model}.
Arguments current_or_lastreg {Model}.

(* ===================================================================== *)
(** ** Definitions that follow the specification *)
(* ===================================================================== *)

(** Section 4.3 of the specification, in its words: [inQuotes] is toggled
    on a quote character, [parenDepth] is incremented on an opening and
    decremented on a closing parenthesis, both only when not in quotes.
    [spec_scan depth inq s] is the pair after reading [s]. *)
Fixpoint spec_scan (parenDepth : Z) (inQuotes : bool) (s : string) : Z * bool :=
  match s with
  | EmptyString => (parenDepth, inQuotes)
  | String c r =>
      if Ascii.eqb c dquote then spec_scan parenDepth (negb inQuotes) r
      else if inQuotes then spec_scan parenDepth inQuotes r
      else if Ascii.eqb c "(" then spec_scan (parenDepth + 1) inQuotes r
      else if Ascii.eqb c ")" then spec_scan (parenDepth - 1) inQuotes r
      else spec_scan parenDepth inQuotes r
  end.

(** A top-level separator: a comma read at [parenDepth == 0] and
    [inQuotes == false]. *)
Definition top_level_comma (command : string) (i : nat) : Prop :=
  String.get i command = Some ","%char
  /\ spec_scan 0 false (Py.take i command) = (0, false).

(** What section 4.3 asks of the pair [r] returned for [command]. *)
Definition split_as_specified (command : string) (r : string * string) : Prop :=
  (exists i : nat,
      top_level_comma command i
      /\ (forall j : nat, (j < i)%nat -> ~ top_level_comma command j)
      /\ r = (Py.strip (Py.take i command), Py.strip (Py.drop (S i) command)))
  \/ ((forall i : nat, ~ top_level_comma command i)
      /\ r = (Py.strip command, "")).

(** Every character of [s] is in the class [p]. *)
Fixpoint str_all (p : ascii -> bool) (s : string) : bool :=
  match s with
  | EmptyString => true
  | String c r => p c && str_all p r
  end.

(** [_parse_options] has no [raise] statement and calls nothing that
    raises ([str] methods on a [str], assignment into a [dict]): every call
    returns its dictionary. *)
Definition _parse_options_outcome (options_str : string) : py_result optdict :=
  Return (_parse_options options_str).

(** Section 4.4, failure mode: the input ends at a non-zero parenthesis
    depth or inside a quote. *)
Definition ends_unbalanced (options_str : string) : Prop :=
  depth (parse_loop pstate0 options_str) <> 0
  \/ in_quotes (parse_loop pstate0 options_str) = true.

(** The loop state with [current] replaced. *)
Definition with_current (st : pstate) (cur : string) : pstate :=
  {| options := options st; current := cur; depth := depth st;
     in_quotes := in_quotes st; current_option := current_option st |}.

(** A character that [_parse_options] only ever appends to [current]. *)
Definition plain (c : ascii) : bool :=
  negb (Ascii.eqb c dquote || Ascii.eqb c "(" || Ascii.eqb c ")"
        || Ascii.eqb c " ").



(** The next character, if any, is outside the class [p]. *)
Definition head_not (p : ascii -> bool) (s : string) : Prop :=
  match s with
  | String c _ => p c = false
  | EmptyString => True
  end.

(** Section 7, delegated-computation errors, for [translate_reghdfe]: the
    command has the shape of the pattern and the code under [try] raises
    [e].  It may do so before a result is there, in the numeric conversion
    of the variables or in the fit. *)
Definition reghdfe_fails_before_result {Model Column : Type}
  (to_numeric : Column -> Column)
  (ols_fit : gmap string Column -> string -> list string ->
             option (list string) -> py_result Model)
  (self : gui Model Column) (command : string) (e : string) : Prop :=
  exists g : Re.groups,
    Re.match_ reghdfe_pattern command = Some g
    /\ (numeric_loop to_numeric (_df self)
          (group g 2 :: Py.split_ws (group g 3)) = Raise e
        \/ exists df : gmap string Column,
            numeric_loop to_numeric (_df self)
              (group g 2 :: Py.split_ws (group g 3)) = Return df
            /\ ols_fit df (group g 2) (Py.split_ws (group g 3))
                 (split_group (g !! 4%nat)) = Raise e).

(** Or it does so once the fit has returned [results], in the lines that
    make the report. *)
Definition reghdfe_fails_in_report {Model Column : Type}
  (to_numeric : Column -> Column)
  (ols_fit : gmap string Column -> string -> list string ->
             option (list string) -> py_result Model)
  (ols_report : Model -> gmap string Column -> string -> list string ->
                option (list string) -> option (list string) ->
                py_result string)
  (self : gui Model Column) (command : string)
  (results : Model) (e : string) : Prop :=
  exists (g : Re.groups) (df : gmap string Column),
    Re.match_ reghdfe_pattern command = Some g
    /\ numeric_loop to_numeric (_df self)
         (group g 2 :: Py.split_ws (group g 3)) = Return df
    /\ ols_fit df (group g 2) (Py.split_ws (group g 3))
         (split_group (g !! 4%nat)) = Return results
    /\ ols_report results df (group g 2) (Py.split_ws (group g 3))
         (split_group (g !! 4%nat)) (split_group (g !! 5%nat)) = Raise e.

(** What [cmd_coefplot] answers and draws when the one name it looks up
    is [n]. *)
Definition coefplot_of_name {Model Column : Type} (self : gui Model Column)
  (n : string) : string * list (Model * string) :=
  match StoredEstimates.get (_stored_estimates self) n with
  | Some est => ("Coefficient plot displayed.", [(StoredEstimates.model est, n)])
  | None => ("No stored models found. Run regressions first.", [])
  end.

(** A line of the console that reports an output or an error. *)
Definition reports_result (line : string) : bool :=
  Py.startswith "[OUTPUT] " line || Py.startswith "[ERROR] " line.

(* ===================================================================== *)
(** ** Further functions of [main.py] *)
(* ===================================================================== *)

(** [parse_command] (lines 733-742): the cut at the first comma, whatever
    surrounds it; [None] for a command without a comma. *)
Definition parse_command (command : string) : string * option string :=
  if Py.contains_char "," command then
    let '(main, options) := split_comma1 command in
    (Py.strip main, Some (Py.strip (default "" options)))
  else (Py.strip command, None).

(** [s.lstrip(c)], [s.rstrip(c)] and [s.strip(c)] for a one-character
    argument. *)
Fixpoint lstrip_char (x : ascii) (s : string) : string :=
  match s with
  | EmptyString => EmptyString
  | String c r => if Ascii.eqb c x then lstrip_char x r else s
  end.

Fixpoint rstrip_char (x : ascii) (s : string) : string :=
  match s with
  | EmptyString => EmptyString
  | String c r =>
      match rstrip_char x r with
      | EmptyString => if Ascii.eqb c x then EmptyString else String c EmptyString
      | r' => String c r'
      end
  end.

Definition strip_char (x : ascii) (s : string) : string :=
  rstrip_char x (lstrip_char x s).

(** [_parse_plot_titles] (lines 1281-1295): the three titles, each from
    the options or from its default, with surrounding double quotes
    removed when it is a string. *)
Definition unquote (v : optval) : optval :=
  match v with
  | VStr s => VStr (strip_char dquote s)
  | VTrue => VTrue
  end.

Definition _parse_plot_titles (options : optdict)
  (default_xtitle default_ytitle default_title : string)
  : optval * optval * optval :=
  let xtitle := default (VStr default_xtitle) (options !! Some "xtitle") in
  let ytitle := default (VStr default_ytitle) (options !! Some "ytitle") in
  let title := default (VStr default_title) (options !! Some "title") in
  (unquote xtitle, unquote ytitle, unquote title).

(** *** History navigation in [handle_key_press] (lines 1041-1054) *)

(** The keys of the two navigation branches. *)
Inductive key : Type :=
| Key_Up | Key_PageUp | Key_Down | Key_PageDown.

(** [l[k]] for a Python index [k]: from the end when [k] is negative;
    [None] stands for [IndexError]. *)
Definition py_index {A : Type} (l : list A) (k : Z) : option A :=
  let n := Z.of_nat (length l) in
  if (0 <=? k) then nth_error l (Z.to_nat k)
  else if (- n <=? k) then nth_error l (Z.to_nat (n + k))
  else None.

(** [history_index] and the text of the command prompt. *)
Record prompt : Type := Prompt {
  history_index : Z;
  prompt_text : string
}.

Definition handle_key_press (command_history : list string) (p : prompt)
  (k : key) : py_result prompt :=
  match k with
  | Key_Up | Key_PageUp =>
      if history_index p <? Z.of_nat (length command_history) - 1 then
        let i := history_index p + 1 in
        match py_index command_history (- (i + 1)) with
        | Some text => Return {| history_index := i; prompt_text := text |}
        | None => Raise "list index out of range"
        end
      else Return p
  | Key_Down | Key_PageDown =>
      if history_index p >? 0 then
        let i := history_index p - 1 in
        match py_index command_history (- (i + 1)) with
        | Some text => Return {| history_index := i; prompt_text := text |}
        | None => Raise "list index out of range"
        end
      else if history_index p =? 0 then
        Return {| history_index := -1; prompt_text := "" |}
      else Return p
  end.

(** A run of key presses over a fixed history; an exception ends it. *)
Fixpoint press_keys (command_history : list string) (p : prompt)
  (ks : list key) : py_result prompt :=
  match ks with
  | [] => Return p
  | k :: ks' =>
      match handle_key_press command_history p k with
      | Return p' => press_keys command_history p' ks'
      | Raise e => Raise e
      end
  end.

(** *** [cmd_estout] and [cmd_eststo] *)

(** [str(n)] for a natural number. *)
Definition str_of_nat (n : nat) : string :=
  DecimalString.NilEmpty.string_of_uint (Nat.to_uint n).

Section MoreHandlers.

Variable Model : Type.
Variable Column : Type.

(** Lines 2541-2550 of [cmd_estout]: the words after the keyword; one that
    starts with a comma is an option [,key=value], the others are names. *)
Fixpoint estout_words (parts : list string)
  (names : list string) (options : gmap string string)
  : list string * gmap string string :=
  match parts with
  | [] => (names, options)
  | part :: parts' =>
      if Py.startswith "," part then
        match Py.split_on "=" (Py.drop 1 part) with
        | [k; v] => estout_words parts' names (<[k := v]> options)
        | _ => estout_words parts' names options
        end
      else estout_words parts' (names ++ [part]) options
  end.

(** Lines 2553-2559: every estimate, or the first name missing. *)
Fixpoint estout_resolve (se : StoredEstimates.t Model) (names : list string)
  : list (StoredEstimates.estimate Model) + string :=
  match names with
  | [] => inl []
  | name :: names' =>
      match StoredEstimates.get se name with
      | Some est =>
          match estout_resolve se names' with
          | inl l => inl (est :: l)
          | inr missing => inr missing
          end
      | None => inr name
      end
  end.

(** Lines 2561-2593: the file written or the text shown. *)
Variable estout_output :
  list (StoredEstimates.estimate Model) -> list string ->
  gmap string string -> string.

Definition cmd_estout (self : gui Model Column) (command : string) : string :=
  let parts := Py.split_ws command in
  if decide (length parts < 2)%nat
  then "Error: estout requires at least one estimate name"
  else
    let '(estimate_names, options) := estout_words (tail parts) [] ∅ in
    match estout_resolve (_stored_estimates self) estimate_names with
    | inr name => "Error: Estimate '" ++ name ++ "' not found"
    | inl estimates => estout_output estimates estimate_names options
    end.

(** [getattr(self._lastreg, 'model_type', 'unknown')] and its two
    siblings: what the result object answers, the default included. *)
Variable attr_model_type : Model -> string.
Variable attr_depvar : Model -> string.
Variable attr_indepvars : Model -> list string.

(** [cmd_eststo]; [now] is the clock reading that [store] takes. *)
Definition cmd_eststo (now : Z) (self : gui Model Column) (command : string)
  : gui Model Column * string :=
  let '(part0, part1) := split_comma1 command in
  let main_part := Py.strip part0 in
  let options :=
    match part1 with
    | Some o => _parse_options (Py.strip o)
    | None => ∅
    end in
  let name :=
    match Py.split_ws main_part with
    | _ :: name :: _ => name
    | _ => "est_" ++ str_of_nat
                       (size (StoredEstimates.estimates (_stored_estimates self)) + 1)
    end in
  match _lastreg self with
  | None => (self, "Error: No estimation results to store. Run a regression first.")
  | Some lastreg =>
      ({| _df := _df self;
          _stored_estimates :=
            StoredEstimates.store now (_stored_estimates self) name lastreg
              (attr_model_type lastreg) (attr_depvar lastreg)
              (attr_indepvars lastreg) (Some options);
          _lastreg := _lastreg self |},
       "Estimate stored as '" ++ name ++ "'")
  end.

End MoreHandlers.

Arguments estout_words : clear implicits.
Arguments estout_resolve {Model}.
Arguments cmd_estout {Model Column}.
Arguments cmd_eststo {Model Column}.

(** *** [filter_history] (lines 1012-1017) *)

(** The items of [history_list] after the filter text has changed. *)
Definition filter_history (command_history : list string)
  (filter_field : string) : list string :=
  let filter_text := Py.lower filter_field in
  List.filter (fun item => Py.contains filter_text (Py.lower item))
              command_history.

(** ** Auxiliary notions of the properties *)

(** The first character, if any. *)
Definition head_char (s : string) : option ascii :=
  match s with
  | String c _ => Some c
  | EmptyString => None
  end.

(** The invariant of the loop of [_parse_options]: an option name is
    pending exactly inside a group, the names stored are strings, and
    every name, stored or pending, is in lower case. *)
Definition parse_inv (st : pstate) : Prop :=
  (depth st <= 0 -> current_option st = None)
  /\ (1 <= depth st -> exists o, current_option st = Some o)
  /\ options st !! None = None
  /\ (forall o, current_option st = Some o -> Py.lower o = o)
  /\ (forall k v, options st !! Some k = Some v -> Py.lower k = k).

(** The loop state over a dictionary that was there before. *)
Definition add_base (m : optdict) (st : pstate) : pstate :=
  {| options := options st ∪ m; current := current st; depth := depth st;
     in_quotes := in_quotes st; current_option := current_option st |}.

(** Neither a double quote nor a parenthesis. *)
Definition no_group_char (c : ascii) : bool :=
  negb (Ascii.eqb c dquote || Ascii.eqb c "(" || Ascii.eqb c ")").

(** A printable character that is neither a quote nor the backslash. *)
Definition simple_char (c : ascii) : bool :=
  Py.isprintable c && negb (Ascii.eqb c "'") && negb (Ascii.eqb c dquote)
  && negb (Ascii.eqb c "\").

(** [history_index] is [-1] (nothing recalled) or an index from the end. *)
Definition nav_inv (command_history : list string) (p : prompt) : Prop :=
  -1 <= history_index p < Z.of_nat (length command_history).

(* ===================================================================== *)
(** * Properties *)
(* ===================================================================== *)

(** ** Strings *)

Lemma string_app_assoc (a b c : string) : (a ++ b) ++ c = a ++ (b ++ c).
Proof. induction a as [|x a IH]; [reflexivity | cbn; now f_equal]. Qed.

Lemma string_app_nil_r (a : string) : a ++ "" = a.
Proof. induction a as [|x a IH]; [reflexivity | cbn; now f_equal]. Qed.

Lemma string_length_snoc (a : string) (c : ascii) :
  String.length (a ++ String c "") = S (String.length a).
Proof. induction a as [|x a IH]; [reflexivity | cbn; now f_equal]. Qed.

Lemma take_app_length (pre rest : string) :
  Py.take (String.length pre) (pre ++ rest) = pre.
Proof.
  induction pre as [|x pre IH]; cbn.
  - now destruct rest.
  - now f_equal.
Qed.

Lemma get_app_length (pre rest : string) (c : ascii) :
  String.get (String.length pre) (pre ++ String c rest) = Some c.
Proof. induction pre as [|x pre IH]; simpl; [reflexivity | exact IH]. Qed.

Lemma get_lt_length (s : string) : forall (i : nat) (c : ascii),
  String.get i s = Some c -> (i < String.length s)%nat.
Proof.
  induction s as [|x s IH]; intros i c H; simpl in *; [discriminate|].
  destruct i as [|i]; [lia|]. apply IH in H. lia.
Qed.

Lemma contains_char_get (c : ascii) (s : string) : forall i : nat,
  Py.contains_char c s = false -> String.get i s <> Some c.
Proof.
  induction s as [|x s IH]; intros i H; simpl in *; [discriminate|].
  apply orb_false_iff in H as [Hx Hs].
  destruct i as [|i].
  - intros [= ->]. now rewrite Ascii.eqb_refl in Hx.
  - now apply IH.
Qed.

(** ** [_split_command_options] against section 4.3 *)

(** The loop body and the specification's bookkeeping agree. *)
Lemma spec_scan_snoc (s : string) (c : ascii) : forall (d : Z) (q : bool),
  spec_scan d q (s ++ String c "") = scan_char c (spec_scan d q s).
Proof.
  induction s as [|x s IH]; intros d q; simpl.
  - unfold scan_char. destruct (Ascii.eqb c dquote); [reflexivity|].
    destruct q; simpl; rewrite ?andb_false_r, ?andb_true_r; [reflexivity|].
    destruct (Ascii.eqb c "("); [reflexivity|].
    now destruct (Ascii.eqb c ")").
  - destruct (Ascii.eqb x dquote); [apply IH|].
    destruct q; [apply IH|].
    destruct (Ascii.eqb x "("); [apply IH|].
    destruct (Ascii.eqb x ")"); apply IH.
Qed.

Lemma scan_char_comma (st : Z * bool) : scan_char "," st = st.
Proof. now destruct st as [d []]. Qed.

Lemma split_loop_as_specified (rest : string) :
  forall (pre : string) (depth : Z) (in_quotes : bool),
    spec_scan 0 false pre = (depth, in_quotes) ->
    (forall j : nat, (j < String.length pre)%nat ->
                     ~ top_level_comma (pre ++ rest) j) ->
    split_as_specified (pre ++ rest)
      (split_loop (pre ++ rest) (String.length pre) depth in_quotes rest).
Proof.
  induction rest as [|c rest IH]; intros pre depth in_quotes Hst Hno.
  - right. split; [|reflexivity].
    intros i Htl.
    destruct (Nat.lt_ge_cases i (String.length pre)) as [Hlt|Hge].
    + exact (Hno i Hlt Htl).
    + destruct Htl as [Hget _]. apply get_lt_length in Hget.
      rewrite string_app_nil_r in Hget. lia.
  - cbn [split_loop].
    destruct (scan_char c (depth, in_quotes)) as [depth' in_quotes'] eqn:Hsc.
    destruct (Ascii.eqb c "," && (depth' =? 0) && negb in_quotes') eqn:Htest.
    + apply andb_true_iff in Htest as [Htest Hq].
      apply andb_true_iff in Htest as [Hc Hd].
      apply Ascii.eqb_eq in Hc. subst c.
      rewrite scan_char_comma in Hsc. injection Hsc as <- <-.
      apply Z.eqb_eq in Hd. apply negb_true_iff in Hq. subst.
      left. exists (String.length pre). split; [|split; [exact Hno|reflexivity]].
      split; [apply get_app_length|]. now rewrite take_app_length.
    + assert (Hhere : ~ top_level_comma (pre ++ String c rest) (String.length pre)).
      { intros [Hget Hs]. rewrite get_app_length in Hget.
        injection Hget as ->. rewrite take_app_length, Hst in Hs.
        injection Hs as -> ->. rewrite scan_char_comma in Hsc.
        injection Hsc as <- <-. discriminate Htest. }
      specialize (IH (pre ++ String c "") depth' in_quotes').
      rewrite string_length_snoc in IH.
      replace ((pre ++ String c "") ++ rest) with (pre ++ String c rest) in IH
        by (now rewrite string_app_assoc).
      apply IH.
      * now rewrite spec_scan_snoc, Hst.
      * intros j Hj. destruct (Nat.eq_dec j (String.length pre)) as [->|Hne].
        -- exact Hhere.
        -- apply Hno. lia.
Qed.

(** C6. [_split_command_options] cuts at the first comma read at
    parenthesis depth 0 and outside quotes, and returns the trimmed text
    before and after it; a comma inside quotes or parentheses is never the
    cut; without a top-level comma the trimmed command is the main clause
    and the option clause is empty.  The three examples of the
    specification are instances, and so is a comma inside parentheses. *)
Theorem split_command_options_as_specified :
  (forall command : string,
      split_as_specified command (_split_command_options command))
  /\ _split_command_options "a b c" = ("a b c", "")
  /\ _split_command_options "a b, x(1)" = ("a b", "x(1)")
  /\ _split_command_options ("a, t(" ++ Q ++ "x, y" ++ Q ++ ")")
     = ("a", "t(" ++ Q ++ "x, y" ++ Q ++ ")")
  /\ _split_command_options "a f(x, y)" = ("a f(x, y)", "").
Proof.
  split; [|repeat split; reflexivity].
  intros command. unfold _split_command_options.
  destruct (Py.contains_char "," command) eqn:Hc; cbn [negb].
  - apply (split_loop_as_specified command "" 0 false); [reflexivity|].
    intros j Hj. cbn in Hj. lia.
  - right. split; [|reflexivity].
    intros i [Hget _]. exact (contains_char_get _ _ i Hc Hget).
Qed.

(** ** [_parse_options] *)

Lemma parse_loop_app (a b : string) : forall st : pstate,
  parse_loop st (a ++ b) = parse_loop (parse_loop st a) b.
Proof. induction a as [|x a IH]; intros st; simpl; [reflexivity | apply IH]. Qed.

Lemma with_current_id (st : pstate) : with_current st (current st) = st.
Proof. now destruct st. Qed.

Lemma plain_inv (c : ascii) :
  plain c = true ->
  Ascii.eqb c dquote = false /\ Ascii.eqb c "(" = false
  /\ Ascii.eqb c ")" = false /\ Ascii.eqb c " " = false.
Proof.
  unfold plain. intros H. apply negb_true_iff in H.
  repeat (apply orb_false_iff in H as [H ?]). auto.
Qed.

(** Plain characters are appended to [current] and nothing else moves. *)
Lemma parse_loop_plain (w : string) : forall st : pstate,
  str_all plain w = true ->
  parse_loop st w = with_current st (current st ++ w).
Proof.
  induction w as [|c w IH]; intros st Hw; simpl.
  - now rewrite string_app_nil_r, with_current_id.
  - simpl in Hw. apply andb_true_iff in Hw as [Hc Hw].
    apply plain_inv in Hc as (Hq & Ho & Hcl & Hsp).
    rewrite IH by exact Hw. unfold parse_step.
    rewrite Hq, Ho, Hcl, Hsp. cbn. unfold with_current, snoc. cbn.
    now rewrite string_app_assoc.
Qed.

(** Inside quotes every character but the quote is appended. *)
Lemma parse_loop_quoted (w : string) : forall st : pstate,
  in_quotes st = true ->
  str_all (Re.not_ dquote) w = true ->
  parse_loop st w = with_current st (current st ++ w).
Proof.
  induction w as [|c w IH]; intros st Hin Hw; simpl.
  - now rewrite string_app_nil_r, with_current_id.
  - simpl in Hw. apply andb_true_iff in Hw as [Hc Hw].
    unfold Re.not_ in Hc. apply negb_true_iff in Hc.
    assert (Hstep : parse_step st c = with_current st (snoc (current st) c)).
    { unfold parse_step. rewrite Hc, Hin. cbn [negb].
      rewrite !andb_false_r. unfold with_current. now rewrite Hin. }
    rewrite Hstep, IH; [|exact Hin|exact Hw].
    unfold with_current, snoc. cbn. now rewrite string_app_assoc.
Qed.

Lemma truthy_app_r (a b : string) : b <> "" -> Py.truthy (a ++ b) = true.
Proof. destruct a; [|reflexivity]. destruct b; [congruence | reflexivity]. Qed.

Lemma truthy_ne (a : string) : a <> "" -> Py.truthy a = true.
Proof. destruct a; [congruence | reflexivity]. Qed.

(** The state in which the loop leaves [name(] followed by nothing. *)
Lemma parse_loop_open (name : string) :
  str_all plain name = true ->
  parse_loop pstate0 (name ++ "(")
  = {| options := ∅; current := ""; depth := 1; in_quotes := false;
       current_option := Some (Py.lower (Py.strip name)) |}.
Proof.
  intros Hn. rewrite parse_loop_app, (parse_loop_plain name) by exact Hn.
  reflexivity.
Qed.

(** C1, as the code has it.  [_parse_options] never reports an error: it
    returns a dictionary for every option clause, also for one that ends
    at a non-zero parenthesis depth or inside a quote.  For a clause that
    ends inside an open parenthesis (a name, an opening parenthesis, plain
    text) the text after the parenthesis is stored as the value of the
    name when it is not empty, and nothing at all is stored when it is
    empty: the clause [a(] gives the empty dictionary, where [a()] gives
    the dictionary that maps [a] to the empty text.  For a clause that
    ends inside an open quote (a name, an opening parenthesis, a quote
    character, text without a quote character) the quote character and
    the text after it are stored as the value of the name. *)
Theorem parse_options_unbalanced_returns :
  (forall s : string, exists d : optdict, _parse_options_outcome s = Return d)
  /\ (forall name value : string,
         str_all plain name = true -> str_all plain value = true ->
         ends_unbalanced (name ++ "(" ++ value)
         /\ _parse_options_outcome (name ++ "(" ++ value)
            = Return (if Py.truthy value
                      then {[ Some (Py.lower (Py.strip name)) := VStr value ]}
                      else ∅))
  /\ (forall name value : string,
         str_all plain name = true ->
         str_all (Re.not_ dquote) value = true ->
         ends_unbalanced (name ++ "(" ++ Q ++ value)
         /\ _parse_options_outcome (name ++ "(" ++ Q ++ value)
            = Return {[ Some (Py.lower (Py.strip name)) := VStr (Q ++ value) ]})
  /\ _parse_options_outcome "a(" = Return ∅
  /\ _parse_options_outcome "a()" = Return {[ Some "a" := VStr "" ]}.
Proof.
  split; [intros s; now eexists|]. split; [|split].
  - intros name value Hn Hv.
    assert (Hloop : parse_loop pstate0 (name ++ "(" ++ value)
                    = {| options := ∅; current := value; depth := 1;
                         in_quotes := false;
                         current_option := Some (Py.lower (Py.strip name)) |}).
    { rewrite <- string_app_assoc, parse_loop_app, parse_loop_open by exact Hn.
      now rewrite parse_loop_plain by exact Hv. }
    split.
    + left. rewrite Hloop. discriminate.
    + unfold _parse_options_outcome, _parse_options.
      rewrite truthy_app_r by discriminate.
      cbn [negb]. rewrite Hloop. unfold parse_finish. cbn.
      destruct (Py.truthy value); [now rewrite insert_empty | reflexivity].
  - intros name value Hn Hv.
    assert (Hloop : parse_loop pstate0 (name ++ "(" ++ Q ++ value)
                    = {| options := ∅; current := Q ++ value; depth := 1;
                         in_quotes := true;
                         current_option := Some (Py.lower (Py.strip name)) |}).
    { rewrite <- string_app_assoc, parse_loop_app, parse_loop_open by exact Hn.
      change (Q ++ value) with (String dquote value). cbn [parse_loop].
      rewrite parse_loop_quoted; [reflexivity|reflexivity|exact Hv]. }
    split.
    + left. rewrite Hloop. discriminate.
    + unfold _parse_options_outcome, _parse_options.
      rewrite truthy_app_r by discriminate.
      cbn [negb]. rewrite Hloop. unfold parse_finish. cbn.
      now rewrite insert_empty.
  - split; vm_compute; reflexivity.
Qed.

Lemma parse_options_unbalanced_returns_witness :
  (ends_unbalanced "a(b"
   /\ _parse_options_outcome "a(b" = Return {[ Some "a" := VStr "b" ]})
  /\ (ends_unbalanced "a("
      /\ _parse_options_outcome "a(" = Return ∅).
Proof.
  split.
  - exact (proj1 (proj2 parse_options_unbalanced_returns) "a" "b"
             eq_refl eq_refl).
  - exact (proj1 (proj2 parse_options_unbalanced_returns) "a" ""
             eq_refl eq_refl).
Defined.

(** C1, as stated, fails: the clause [a(b] ends at parenthesis depth 1,
    and [_parse_options] returns the dictionary that maps [a] to [b]; so
    it is not the case that every unbalanced clause is reported as an
    error. *)
Lemma parse_options_unbalanced_not_reported :
  ends_unbalanced "a(b"
  /\ _parse_options_outcome "a(b" = Return {[ Some "a" := VStr "b" ]}
  /\ ~ (forall s : string,
          ends_unbalanced s ->
          exists msg : string, _parse_options_outcome s = Raise msg).
Proof.
  split; [left; vm_compute; discriminate|].
  split; [vm_compute; reflexivity|].
  intros H. destruct (H "a(b") as [msg Hmsg].
  - left. vm_compute. discriminate.
  - discriminate Hmsg.
Qed.

(** The example of section 8 holds. *)
Lemma parse_options_example :
  _parse_options ("percent title(" ++ Q ++ "My Title" ++ Q ++ ") bins(20)")
  = <[Some "bins" := VStr "20"]>
      (<[Some "title" := VStr (Q ++ "My Title" ++ Q)]>
         (<[Some "percent" := VTrue]> ∅)).
Proof. vm_compute. reflexivity. Qed.

(** A bare identifier is a flag; an identifier with a flat group is a
    valued option; names are lower-cased. *)
Lemma parse_options_flag (name : string) :
  str_all plain name = true -> name <> "" ->
  _parse_options name = {[ Some (Py.lower name) := VTrue ]}.
Proof.
  intros Hn Hne. unfold _parse_options.
  rewrite truthy_ne by exact Hne. cbn [negb].
  rewrite parse_loop_plain by exact Hn. unfold parse_finish. cbn.
  rewrite truthy_ne by exact Hne. now rewrite insert_empty.
Qed.

Lemma parse_options_flat_value (name value : string) :
  str_all plain name = true -> str_all plain value = true ->
  _parse_options (name ++ "(" ++ value ++ ")")
  = {[ Some (Py.lower (Py.strip name)) := VStr value ]}.
Proof.
  intros Hn Hv. unfold _parse_options.
  rewrite truthy_app_r by discriminate. cbn [negb].
  rewrite <- string_app_assoc, parse_loop_app, parse_loop_open by exact Hn.
  rewrite (parse_loop_app value ")"), (parse_loop_plain value) by exact Hv.
  cbn. unfold parse_finish. cbn. now rewrite insert_empty.
Qed.

(** C7 fails on a nested group.  Inside a group the loop appends a closing
    parenthesis of an inner group to [current] but not the opening one, so
    the value of [stats(mean(x))] is stored without its inner opening
    parenthesis instead of as the raw text between the outer parentheses.
    Quoted material and flat groups are stored as the claim says. *)
Theorem parse_options_drops_nested_open_paren :
  _parse_options "stats(mean(x))" = {[ Some "stats" := VStr "meanx)" ]}
  /\ _parse_options "stats(mean(x))" <> {[ Some "stats" := VStr "mean(x)" ]}
  /\ _parse_options ("title(" ++ Q ++ "A (B) C" ++ Q ++ ")")
     = {[ Some "title" := VStr (Q ++ "A (B) C" ++ Q) ]}.
Proof.
  split; [vm_compute; reflexivity|].
  split; [|vm_compute; reflexivity].
  intros H. apply (f_equal (fun m : optdict => m !! Some "stats")) in H.
  vm_compute in H. discriminate H.
Qed.

(** ** The [by] prefix *)

Lemma lstrip_length (s : string) :
  (String.length (Py.lstrip s) <= String.length s)%nat.
Proof.
  induction s as [|c s IH]; simpl; [lia|].
  destruct (Py.isspace c); simpl; lia.
Qed.

Lemma rstrip_length (s : string) :
  (String.length (Py.rstrip s) <= String.length s)%nat.
Proof.
  induction s as [|c s IH]; simpl; [lia|].
  destruct (Py.rstrip s); [destruct (Py.isspace c)|]; simpl in *; lia.
Qed.

(** A trimmed string does not start with a space. *)
Lemma strip_id_head (c : ascii) (r : string) :
  Py.strip (String c r) = String c r -> Py.isspace c = false.
Proof.
  intros H. destruct (Py.isspace c) eqn:E; [exfalso|reflexivity].
  apply (f_equal String.length) in H. unfold Py.strip in H.
  simpl in H. rewrite E in H.
  pose proof (rstrip_length (Py.lstrip r)). pose proof (lstrip_length r). lia.
Qed.









(** The examples of section 8, and an inner command that has its own
    grouping option. *)
Lemma by_rewrite_examples :
  by_rewrite "by g: egen m = mean(x)" = "egen m = mean(x), by(g)"
  /\ by_rewrite "by g: egen m = mean(x), by(h)" = "egen m = mean(x), by(h)"
  /\ by_rewrite "bys g h: egen m = mean(x), missing"
     = "egen m = mean(x), missing by(g h)".
Proof. repeat split; vm_compute; reflexivity. Qed.


(** ** The registry and its aliases *)

Lemma registry_aliases :
  setup_command_registry !! "reg" = Some H_translate_reghdfe
  /\ setup_command_registry !! "regress" = Some H_translate_reghdfe
  /\ setup_command_registry !! "reghdfe" = Some H_translate_reghdfe
  /\ setup_command_registry !! "ivreg" = Some H_translate_ivreghdfe
  /\ setup_command_registry !! "ivregress" = Some H_translate_ivreghdfe
  /\ setup_command_registry !! "ivreghdfe" = Some H_translate_ivreghdfe
  /\ setup_command_registry !! "su" = Some H_cmd_summarize
  /\ setup_command_registry !! "summarize" = Some H_cmd_summarize.
Proof. repeat split; vm_compute; reflexivity. Qed.

(** The pattern of [translate_reghdfe] names its three keywords. *)
Lemma reghdfe_pattern_aliases :
  (fun g => group g 3) <$> Re.match_ reghdfe_pattern "reg y x1 x2"
  = Some "x1 x2"
  /\ (fun g => group g 3) <$> Re.match_ reghdfe_pattern "regress y x1 x2"
     = Some "x1 x2"
  /\ (fun g => group g 3) <$> Re.match_ reghdfe_pattern "reghdfe y x1 x2"
     = Some "x1 x2".
Proof. repeat split; vm_compute; reflexivity. Qed.

(** C3 fails for the aliases of [ivreghdfe].  The table sends [ivreg] and
    [ivregress] to the handler of [ivreghdfe], with the command text as
    typed; the pattern of that handler starts with the literal keyword
    [ivreghdfe], so every command that starts with an alias is answered
    with the pair [(None, "Invalid ivreghdfe command format")] and leaves
    the state alone, while the same command under the canonical keyword
    matches and goes on to the fit. *)
Theorem ivreg_aliases_rejected_by_handler :
  forall (Model Column : Type)
         (iv_dummies : gmap string Column -> option (list string) ->
                       py_result (gmap string Column))
         (iv_fit : gmap string Column -> Re.groups -> py_result (Model * string))
         (now : Z) (self : gui Model Column) (rest : string),
    dispatch setup_command_registry "ivreg y (x1 = z) x2"
    = RHandler H_translate_ivreghdfe "ivreg y (x1 = z) x2"
    /\ dispatch setup_command_registry "ivreghdfe y (x1 = z) x2"
       = RHandler H_translate_ivreghdfe "ivreghdfe y (x1 = z) x2"
    /\ translate_ivreghdfe iv_dummies iv_fit now self ("ivreg " ++ rest)
       = (self, Return (IvPair "Invalid ivreghdfe command format"))
    /\ translate_ivreghdfe iv_dummies iv_fit now self ("ivregress " ++ rest)
       = (self, Return (IvPair "Invalid ivreghdfe command format"))
    /\ Re.match_ ivreghdfe_pattern "ivreghdfe y (x1 = z) x2"
       = Some (<[4%nat := "x2"]> (<[3%nat := "z"]> (<[2%nat := "x1"]>
                 (<[1%nat := "y"]> ∅)))).
Proof.
  intros. split; [vm_compute; reflexivity|].
  split; [vm_compute; reflexivity|].
  split; [reflexivity|]. split; [reflexivity|].
  vm_compute. reflexivity.
Qed.

(** ** Post-estimation commands with several names *)

(** [cmd_esttab] does stop at the first name that is not stored. *)
Lemma esttab_resolve_missing {Model : Type} (se : StoredEstimates.t Model)
  (names : list string) :
  (exists n : string, In n names /\ StoredEstimates.get se n = None) ->
  exists n : string,
    In n names /\ StoredEstimates.get se n = None
    /\ esttab_resolve se names = inr n.
Proof.
  induction names as [|x names IH]; intros (n & Hin & Hn); [destruct Hin|].
  simpl. destruct (StoredEstimates.get se x) as [est|] eqn:Hx.
  - destruct Hin as [->|Hin]; [congruence|].
    destruct (IH (ex_intro _ n (conj Hin Hn))) as (n' & Hin' & Hn' & ->).
    exists n'. auto.
  - exists x. auto.
Qed.

(** C4 fails for [cmd_coefplot].  With the estimate [a] stored and [b]
    not, [coefplot a b] draws the model of [a] and reports success; the
    missing name is skipped without a word, and in [coefplot b a] the
    model of [a] is even drawn under the label [b].  [cmd_esttab] on the
    same names answers with the error that names [b]. *)
Theorem coefplot_skips_missing_name :
  forall (Model Column : Type) (m : Model) (df : gmap string Column) (now : Z)
         (table : list (string * StoredEstimates.estimate Model) -> string -> string),
    let se := StoredEstimates.store now StoredEstimates.init "a" m "ols" "y" ["x"] None in
    let self := Gui df se (Some m) in
    StoredEstimates.get se "b" = None
    /\ cmd_coefplot self "coefplot a b"
       = ("Coefficient plot displayed.", [(m, "a")])
    /\ cmd_coefplot self "coefplot b a"
       = ("Coefficient plot displayed.", [(m, "b")])
    /\ cmd_esttab table self "esttab a b" = "Error: Estimate 'b' not found".
Proof.
  intros. split; [reflexivity|]. repeat split; vm_compute; reflexivity.
Qed.

(** ** A failed estimation *)

Lemma numeric_loop_missing {Column : Type} (to_numeric : Column -> Column)
  (vars : list string) : forall (df : gmap string Column) (var : string),
  In var vars -> df !! var = None ->
  exists e : string, numeric_loop to_numeric df vars = Raise e.
Proof.
  induction vars as [|x vars IH]; intros df var Hin Hvar; [destruct Hin|].
  simpl. destruct (df !! x) as [col|] eqn:Hx; [|now eexists].
  destruct Hin as [->|Hin]; [congruence|].
  apply (IH _ var Hin). rewrite lookup_insert_ne; [exact Hvar|congruence].
Qed.

(** A failure before the result is there leaves the state alone. *)
Lemma translate_reghdfe_early_failure {Model Column : Type}
  (to_numeric : Column -> Column)
  (ols_fit : gmap string Column -> string -> list string ->
             option (list string) -> py_result Model)
  (ols_report : Model -> gmap string Column -> string -> list string ->
                option (list string) -> option (list string) ->
                py_result string)
  (now : Z) (self : gui Model Column) (command : string) (e : string) :
  reghdfe_fails_before_result to_numeric ols_fit self command e ->
  translate_reghdfe to_numeric ols_fit ols_report now self command
  = (self, "Error: " ++ e).
Proof.
  intros (g & Hg & Hfail). unfold translate_reghdfe. rewrite Hg.
  destruct Hfail as [Hnum | (df & Hnum & Hfit)].
  - now rewrite Hnum.
  - now rewrite Hnum, Hfit.
Qed.

(** C5 fails for [translate_reghdfe] when the failure comes after the
    fit.  The handler stores the result as [lastreg], makes it the last
    result and sets [current_name] before it formats the report, all under
    one [try]: when the report raises, the answer is the error text, and
    the stored estimate, [current_name] and [_lastreg] are the new ones,
    not the ones from before the command.  Only the data set is as it was.
    A failure before the fit has returned (a variable that is no column,
    a fit that raises) does leave the whole state alone. *)
Theorem translate_reghdfe_report_failure_keeps_store :
  forall (Model Column : Type) (to_numeric : Column -> Column)
         (ols_fit : gmap string Column -> string -> list string ->
                    option (list string) -> py_result Model)
         (ols_report : Model -> gmap string Column -> string -> list string ->
                       option (list string) -> option (list string) ->
                       py_result string)
         (now : Z) (self : gui Model Column) (command : string),
    (forall e : string,
        reghdfe_fails_before_result to_numeric ols_fit self command e ->
        translate_reghdfe to_numeric ols_fit ols_report now self command
        = (self, "Error: " ++ e))
    /\ (forall (results : Model) (e : string),
           reghdfe_fails_in_report to_numeric ols_fit ols_report
             self command results e ->
           let r := translate_reghdfe to_numeric ols_fit ols_report
                      now self command in
           snd r = "Error: " ++ e
           /\ _df (fst r) = _df self
           /\ _lastreg (fst r) = Some results
           /\ StoredEstimates.current_name (_stored_estimates (fst r))
              = Some "lastreg"
           /\ StoredEstimates.model
                <$> StoredEstimates.get (_stored_estimates (fst r)) "lastreg"
              = Some results
           /\ (_lastreg self <> Some results -> fst r <> self))
    /\ (forall (g : Re.groups) (var : string),
           Re.match_ reghdfe_pattern command = Some g ->
           In var (group g 2 :: Py.split_ws (group g 3)) ->
           _df self !! var = None ->
           exists e : string,
             reghdfe_fails_before_result to_numeric ols_fit self command e).
Proof.
  intros. split; [intros e; apply translate_reghdfe_early_failure|].
  split; cycle 1.
  { intros g var Hg Hin Hvar.
    destruct (numeric_loop_missing to_numeric _ _ var Hin Hvar) as [e He].
    exists e, g. auto. }
  intros results e (g & df & Hg & Hnum & Hfit & Hrep) r.
  subst r. unfold translate_reghdfe. rewrite Hg, Hnum, Hfit, Hrep.
  cbn [fst snd _df _lastreg _stored_estimates].
  split; [reflexivity|]. split; [reflexivity|]. split; [reflexivity|].
  split; [reflexivity|]. split.
  - unfold StoredEstimates.store, StoredEstimates.get.
    cbn [StoredEstimates.estimates]. now rewrite lookup_insert_eq.
  - intros Hne Heq. apply Hne. rewrite <- Heq. reflexivity.
Qed.

Lemma translate_reghdfe_report_failure_keeps_store_witness :
  let self : gui (list string) (list Z) :=
    Gui {[ "y" := [1; 2]; "x1" := [3; 4] ]} StoredEstimates.init None in
  let r :=
    translate_reghdfe (fun col => col)
      (fun _ _ indep_vars _ => Return ("const" :: indep_vars))
      (fun params _ _ _ _ _ =>
         if bool_decide (NoDup params)
         then Return "Linear regression (reghdfe style)"
         else Raise "unsupported format string passed to Series.__format__")
      0 self "reg y x1 x1" in
  snd r = "Error: unsupported format string passed to Series.__format__"
  /\ _lastreg (fst r) = Some ["const"; "x1"; "x1"]
  /\ StoredEstimates.current_name (_stored_estimates (fst r)) = Some "lastreg"
  /\ fst r <> self.
Proof.
  intros self r.
  assert (Hfail :
    reghdfe_fails_in_report (fun col : list Z => col)
      (fun _ _ indep_vars _ => Return ("const" :: indep_vars))
      (fun params _ _ _ _ _ =>
         if bool_decide (NoDup params)
         then Return "Linear regression (reghdfe style)"
         else Raise "unsupported format string passed to Series.__format__")
      self "reg y x1 x1" ["const"; "x1"; "x1"]
      "unsupported format string passed to Series.__format__").
  { eexists. eexists. split; [vm_compute; reflexivity|].
    split; [vm_compute; reflexivity|]. split; [reflexivity|].
    vm_compute. reflexivity. }
  destruct (proj1 (proj2 (translate_reghdfe_report_failure_keeps_store
                     (list string) (list Z) (fun col => col)
                     (fun _ _ indep_vars _ => Return ("const" :: indep_vars))
                     (fun params _ _ _ _ _ =>
                        if bool_decide (NoDup params)
                        then Return "Linear regression (reghdfe style)"
                        else Raise "unsupported format string passed to Series.__format__")
                     0 self "reg y x1 x1"))
              ["const"; "x1"; "x1"]
              "unsupported format string passed to Series.__format__" Hfail)
    as (H1 & _ & H3 & H4 & _ & H6).
  split; [exact H1|]. split; [exact H3|]. split; [exact H4|].
  apply H6. discriminate.
Defined.

(** [translate_ivreghdfe] stores after the fit as well: an exception in
    the dummy columns leaves the handler, one in the fit becomes an error
    text, and in both cases the state is the one from before. *)
Lemma translate_ivreghdfe_failure_leaves_state :
  forall (Model Column : Type)
         (iv_dummies : gmap string Column -> option (list string) ->
                       py_result (gmap string Column))
         (iv_fit : gmap string Column -> Re.groups -> py_result (Model * string))
         (now : Z) (self : gui Model Column) (command : string)
         (g : Re.groups) (e : string),
    Re.match_ ivreghdfe_pattern command = Some g ->
    (iv_dummies (_df self) (split_group (g !! 5%nat)) = Raise e ->
     translate_ivreghdfe iv_dummies iv_fit now self command = (self, Raise e))
    /\ (forall df : gmap string Column,
           iv_dummies (_df self) (split_group (g !! 5%nat)) = Return df ->
           iv_fit df g = Raise e ->
           translate_ivreghdfe iv_dummies iv_fit now self command
           = (self, Return (IvText ("Error: " ++ e)))).
Proof.
  intros * Hg. unfold translate_ivreghdfe. rewrite Hg. split.
  - now intros ->.
  - intros df -> Hfit. now rewrite Hfit.
Qed.

(** ** [StoredEstimates] and the implicit name *)

(** [cmd_coefplot] on a command without a name word asks for
    [current_name or 'lastreg']. *)
Lemma cmd_coefplot_implicit {Model Column : Type} (self : gui Model Column)
  (command : string) :
  coefplot_names command = [] ->
  cmd_coefplot self command
  = coefplot_of_name self (current_or_lastreg (_stored_estimates self)).
Proof.
  intros H. unfold cmd_coefplot, coefplot_of_name. rewrite H.
  cbn [coefplot_models].
  now destruct (StoredEstimates.get _ _).
Qed.

Lemma cmd_coefplot_no_name {Model Column : Type} (self : gui Model Column) :
  cmd_coefplot self "coefplot"
  = match StoredEstimates.get (_stored_estimates self)
            (current_or_lastreg (_stored_estimates self)) with
    | Some est =>
        ("Coefficient plot displayed.",
         [(StoredEstimates.model est,
           current_or_lastreg (_stored_estimates self))])
    | None => ("No stored models found. Run regressions first.", [])
    end.
Proof. now rewrite cmd_coefplot_implicit. Qed.

(** C8, as the code has it.  [store] always returns a registry that holds
    the estimate under [name] and has [current_name] set to [name]; a
    second [store] under the same name replaces the first.  A [coefplot]
    command without a name, that is one in which every word after the
    keyword has an equals sign or an opening parenthesis in it, looks up
    one name: [current_name] when that is a string other than the empty
    one, and [lastreg] when [current_name] is the empty string or [None];
    it draws the estimate stored under that name, and answers that no
    stored models were found when there is none.  So after [store] under
    a name other than the empty one it draws the estimate just stored. *)
Theorem store_overwrites_and_coefplot_resolves_current :
  forall (Model Column : Type) (se : StoredEstimates.t Model) (name : string)
         (now1 now2 : Z) (m1 m2 : Model) (t1 t2 d1 d2 : string)
         (i1 i2 : list string) (o1 o2 : option optdict),
    let se1 := StoredEstimates.store now1 se name m1 t1 d1 i1 o1 in
    let se2 := StoredEstimates.store now2 se1 name m2 t2 d2 i2 o2 in
    StoredEstimates.get se1 name
    = Some (StoredEstimates.Estimate m1 t1 d1 i1 (default ∅ o1) now1 ∅)
    /\ StoredEstimates.current_name se1 = Some name
    /\ StoredEstimates.get se2 name
       = Some (StoredEstimates.Estimate m2 t2 d2 i2 (default ∅ o2) now2 ∅)
    /\ StoredEstimates.current_name se2 = Some name
    /\ (forall (self : gui Model Column) (command : string),
           coefplot_names command = [] ->
           (forall n : string,
               StoredEstimates.current_name (_stored_estimates self) = Some n ->
               n <> "" ->
               cmd_coefplot self command = coefplot_of_name self n)
           /\ (StoredEstimates.current_name (_stored_estimates self) = Some ""
               \/ StoredEstimates.current_name (_stored_estimates self) = None ->
               cmd_coefplot self command = coefplot_of_name self "lastreg"))
    /\ (forall (df : gmap string Column) (lastreg : option Model)
               (command : string),
           coefplot_names command = [] ->
           name <> "" ->
           cmd_coefplot (Gui df se1 lastreg) command
           = ("Coefficient plot displayed.", [(m1, name)]))
    /\ coefplot_names "coefplot" = []
    /\ coefplot_names "coefplot, xline(0)" = []
    /\ coefplot_names "coefplot xline(0) level=90" = [].
Proof.
  intros. unfold se2, se1, StoredEstimates.store, StoredEstimates.get.
  cbn [StoredEstimates.estimates StoredEstimates.current_name].
  rewrite !lookup_insert_eq.
  split; [reflexivity|]. split; [reflexivity|].
  split; [reflexivity|]. split; [reflexivity|].
  split; [|split; [|repeat split; vm_compute; reflexivity]].
  - intros self command Hnames. rewrite (cmd_coefplot_implicit _ _ Hnames).
    unfold current_or_lastreg. split.
    + intros n -> Hne. now rewrite truthy_ne by exact Hne.
    + now intros [->| ->].
  - intros df lastreg command Hnames Hne.
    rewrite (cmd_coefplot_implicit _ _ Hnames).
    unfold current_or_lastreg, coefplot_of_name.
    cbn [_stored_estimates StoredEstimates.current_name].
    rewrite truthy_ne by exact Hne.
    unfold StoredEstimates.get. cbn [StoredEstimates.estimates].
    now rewrite lookup_insert_eq.
Qed.

Lemma store_overwrites_and_coefplot_resolves_current_witness :
  cmd_coefplot
    (Gui (∅ : gmap string (list Z))
         (StoredEstimates.store 0 StoredEstimates.init "m1" 7 "ols" "y" ["x"] None)
         None)
    "coefplot, xline(0)"
  = ("Coefficient plot displayed.", [(7, "m1")])
  /\ cmd_coefplot
       (Gui (∅ : gmap string (list Z))
          (StoredEstimates.store 0 StoredEstimates.init "lastreg" 7 "ols" "y" ["x"] None)
          None)
       "coefplot"
     = coefplot_of_name
         (Gui (∅ : gmap string (list Z))
            (StoredEstimates.store 0 StoredEstimates.init "lastreg" 7 "ols" "y" ["x"] None)
            None)
         "lastreg"
  /\ cmd_coefplot
       (Gui (∅ : gmap string (list Z)) (StoredEstimates.init : StoredEstimates.t Z) None)
       "coefplot"
     = coefplot_of_name
         (Gui (∅ : gmap string (list Z)) (StoredEstimates.init : StoredEstimates.t Z) None)
         "lastreg".
Proof.
  split; [|split].
  - exact (proj1 (proj2 (proj2 (proj2 (proj2 (proj2
             (store_overwrites_and_coefplot_resolves_current Z (list Z)
                StoredEstimates.init "m1" 0 0 7 7 "ols" "ols" "y" "y"
                ["x"] ["x"] None None))))))
             ∅ None "coefplot, xline(0)" eq_refl ltac:(discriminate)).
  - exact (proj1 (proj1 (proj2 (proj2 (proj2 (proj2
             (store_overwrites_and_coefplot_resolves_current Z (list Z)
                StoredEstimates.init "m1" 0 0 7 7 "ols" "ols" "y" "y"
                ["x"] ["x"] None None)))))
             (Gui ∅ (StoredEstimates.store 0 StoredEstimates.init
                       "lastreg" 7 "ols" "y" ["x"] None) None)
             "coefplot" eq_refl)
             "lastreg" eq_refl ltac:(discriminate)).
  - exact (proj2 (proj1 (proj2 (proj2 (proj2 (proj2
             (store_overwrites_and_coefplot_resolves_current Z (list Z)
                StoredEstimates.init "m1" 0 0 7 7 "ols" "ols" "y" "y"
                ["x"] ["x"] None None)))))
             (Gui ∅ StoredEstimates.init None)
             "coefplot" eq_refl)
             (or_intror eq_refl)).
Defined.

(** C8, as stated, fails on the implicit name.  After [store] under the
    empty string, [current_name] is that name and [get] finds the
    estimate, but [cmd_coefplot] without a name asks for [lastreg] and
    finds nothing.  And [cmd_esttab] without a name does not look at
    [current_name]: with [a] and [b] stored, [b] last, it tabulates
    both. *)
Lemma implicit_name_is_not_always_current_name :
  let se := StoredEstimates.store 0 StoredEstimates.init "" 7 "ols" "y" ["x"] None in
  let self : gui Z (list Z) := Gui ∅ se None in
  let se1 := StoredEstimates.store 0 StoredEstimates.init "a" 1 "ols" "y" ["x"] None in
  let se2 := StoredEstimates.store 1 se1 "b" 2 "ols" "y" ["x"] None in
  let self2 : gui Z (list Z) := Gui ∅ se2 None in
  (StoredEstimates.current_name se = Some ""
   /\ StoredEstimates.model <$> StoredEstimates.get se "" = Some 7
   /\ cmd_coefplot self "coefplot"
      = ("No stored models found. Run regressions first.", []))
  /\ (StoredEstimates.current_name se2 = Some "b"
      /\ cmd_esttab (fun ests _ => Py.join " " (map fst ests)) self2 "esttab"
         = "a b").
Proof. repeat split; vm_compute; reflexivity. Qed.

(** ** Commands that are empty after comment stripping *)

Lemma by_pattern_first_char (c : ascii) (r : string) :
  Ascii.eqb c "b" = false -> Re.match_ by_pattern (String c r) = None.
Proof. intros H. unfold Re.match_, by_pattern. cbn. now rewrite H. Qed.

Lemma strip_keeps_head (c : ascii) (r : string) :
  Py.isspace c = false -> exists r' : string, Py.strip (String c r) = String c r'.
Proof.
  intros H. unfold Py.strip. simpl. rewrite H. simpl.
  destruct (Py.rstrip r); [rewrite H|]; now eexists.
Qed.

(** A full-line comment is not taken for a [by] prefix. *)
Lemma comment_line_not_rewritten (cmd : string) :
  Py.startswith "*" (Py.strip cmd) || Py.startswith "//" (Py.strip cmd) = true ->
  by_rewrite cmd = cmd.
Proof.
  intros H. destruct cmd as [|c r]; [reflexivity|].
  destruct (Ascii.eqb c "b") eqn:Hb.
  - apply Ascii.eqb_eq in Hb. subst c.
    destruct (strip_keeps_head "b" r eq_refl) as [r' Hr'].
    rewrite Hr' in H. discriminate H.
  - unfold by_rewrite. now rewrite by_pattern_first_char.
Qed.

Lemma command_line_reports_nothing (cmd : string) :
  reports_result ("[COMMAND] " ++ cmd) = false.
Proof. reflexivity. Qed.

(** C9, as the code has it.  A command that is empty after the prefix
    rewrite and comment stripping is not dispatched: the state of the
    collaborators is untouched, the outcome is the same whatever the
    collaborators would do, and no line that reports an output or an
    error is written to the console.  It is, however, appended to the
    command history, as typed.  A line whose first characters after
    leading blanks are a full-line comment marker is such a command. *)
Theorem empty_command_recorded_not_dispatched :
  forall (World : Type)
         (perform : route -> World -> World * (string + string))
         (reg : gmap string handler) (s : session World) (cmd : string),
    (_strip_stata_comments (by_rewrite cmd) = "" ->
     world (execute_one perform reg s cmd) = world s
     /\ (forall (perform' : route -> World -> World * (string + string))
                (reg' : gmap string handler),
            execute_one perform' reg' s cmd = execute_one perform reg s cmd)
     /\ (exists lines : list string,
            console (execute_one perform reg s cmd)
            = (console s ++ lines)%list
            /\ Forall (fun line => reports_result line = false) lines)
     /\ command_history (execute_one perform reg s cmd)
        = (command_history s ++ [cmd])%list)
    /\ (Py.startswith "*" (Py.strip cmd) || Py.startswith "//" (Py.strip cmd)
        = true ->
        _strip_stata_comments (by_rewrite cmd) = "").
Proof.
  intros. split.
  - intros H. unfold execute_one. rewrite !H. cbn [Py.truthy String.eqb negb].
    cbn [world console command_history].
    split; [reflexivity|]. split; [reflexivity|]. split; [|reflexivity].
    exists ["[COMMAND] " ++ cmd]. split; [reflexivity|].
    constructor; [apply command_line_reports_nothing | constructor].
  - intros H. rewrite comment_line_not_rewritten by exact H.
    unfold _strip_stata_comments. now rewrite H.
Qed.

Lemma empty_command_recorded_not_dispatched_witness :
  world (execute_one (fun _ (w : nat) => (S w, inl "ran")) setup_command_registry
           (Session 0%nat [] [] []) "  // note") = 0%nat
  /\ command_history
       (execute_one (fun _ (w : nat) => (S w, inl "ran")) setup_command_registry
          (Session 0%nat [] [] []) "  // note")
     = ["  // note"].
Proof.
  destruct (proj1 (empty_command_recorded_not_dispatched nat
                     (fun _ w => (S w, inl "ran")) setup_command_registry
                     (Session 0%nat [] [] []) "  // note") eq_refl)
    as (Hw & _ & _ & Hh).
  split; [exact Hw | exact Hh].
Defined.

(** C9, as stated, fails on the history: a submitted full-line comment is
    not dispatched, but it is in the command history afterwards. *)
Lemma comment_line_enters_history :
  let s := execute_command (fun _ (w : nat) => (S w, inl "ran"))
             setup_command_registry (Session 0%nat [] [] []) "* First comment" in
  world s = 0%nat
  /\ command_history s = ["* First comment"]
  /\ command_history s <> [].
Proof.
  intros s. split; [vm_compute; reflexivity|].
  split; [vm_compute; reflexivity|]. vm_compute. discriminate.
Qed.

(** ** The scripting route *)

(** C10.  A command whose first character after comment stripping is [>]
    is routed to the scripting context with the rest of its text,
    trimmed, whatever the keyword table holds and whatever keyword the
    rest starts with; the table is not consulted.  The test for [!] comes
    first, and the tests for [bash], [cd] and the table come after. *)
Theorem gt_prefix_routes_to_python :
  (forall (reg : gmap string handler) (rest : string),
      dispatch reg (String ">" rest) = RPython (Py.strip rest)
      /\ consults_table (dispatch reg (String ">" rest)) = false
      /\ dispatch reg (String "!" rest) = RShell (Py.strip rest))
  /\ (forall (World : Type)
             (perform : route -> World -> World * (string + string))
             (reg : gmap string handler) (s : session World)
             (cmd rest : string),
         _strip_stata_comments (by_rewrite cmd) = String ">" rest ->
         world (execute_one perform reg s cmd)
         = fst (perform (RPython (Py.strip rest)) (world s)))
  /\ dispatch setup_command_registry "summarize x"
     = RHandler H_cmd_summarize "summarize x"
  /\ dispatch setup_command_registry "> summarize x" = RPython "summarize x"
  /\ dispatch setup_command_registry ">bash ls" = RPython "bash ls"
  /\ dispatch setup_command_registry "> cd /tmp" = RPython "cd /tmp"
  /\ dispatch setup_command_registry "!> x" = RShell "> x".
Proof.
  split; [intros reg rest; repeat split|].
  split; [|repeat split; vm_compute; reflexivity].
  intros World perform reg s cmd rest H.
  unfold execute_one. rewrite H. cbn [Py.truthy String.eqb negb].
  change (dispatch reg (String ">" rest)) with (RPython (Py.strip rest)).
  cbn [world].
  now destruct (perform (RPython (Py.strip rest)) (world s)) as [w [out|err]].
Qed.

Lemma gt_prefix_routes_to_python_witness :
  world (execute_one
           (fun r (w : list route) => ((w ++ [r])%list, inl "")) setup_command_registry
           (Session [] [] [] []) "> summarize x // note")
  = [RPython "summarize x"].
Proof.
  exact (proj1 (proj2 gt_prefix_routes_to_python) (list route)
           (fun r w => ((w ++ [r])%list, inl "")) setup_command_registry
           (Session [] [] [] []) "> summarize x // note" " summarize x"
           eq_refl).
Defined.

(* ===================================================================== *)
(** * Further properties *)
(* ===================================================================== *)

(** ** The invariant of [_parse_options] *)

Lemma lower_char_idem (c : ascii) :
  Py.lower_char (Py.lower_char c) = Py.lower_char c.
Proof. destruct c as [[] [] [] [] [] [] [] []]; reflexivity. Qed.

Lemma lower_idem (s : string) : Py.lower (Py.lower s) = Py.lower s.
Proof.
  induction s as [|c s IH]; simpl; [reflexivity|].
  now rewrite lower_char_idem, IH.
Qed.

Lemma parse_inv_init : parse_inv pstate0.
Proof.
  unfold parse_inv, pstate0. cbn.
  repeat split; try discriminate; try lia.
Qed.

Lemma parse_inv_insert_flag (st : pstate) (cur : string) :
  parse_inv st ->
  forall k v,
    (<[Some (Py.lower cur) := VTrue]> (options st) : optdict) !! Some k = Some v ->
    Py.lower k = k.
Proof.
  intros (_ & _ & _ & _ & Hk) k v H.
  destruct (decide (Py.lower cur = k)) as [<-|Hne].
  - apply lower_idem.
  - rewrite lookup_insert_ne in H by congruence. eauto.
Qed.

Lemma parse_inv_insert_value (st : pstate) (o cur : string) :
  parse_inv st -> Py.lower o = o ->
  forall k v,
    (<[Some o := VStr cur]> (options st) : optdict) !! Some k = Some v ->
    Py.lower k = k.
Proof.
  intros (_ & _ & _ & _ & Hk) Ho k v H.
  destruct (decide (o = k)) as [<-|Hne]; [exact Ho|].
  rewrite lookup_insert_ne in H by congruence. eauto.
Qed.

Lemma parse_step_inv (st : pstate) (c : ascii) :
  parse_inv st -> parse_inv (parse_step st c).
Proof.
  intros Hinv. pose proof Hinv as (Hle & Hge & Hnone & Hlow & Hkeys).
  unfold parse_step.
  destruct (Ascii.eqb c dquote); [exact Hinv|].
  destruct (Ascii.eqb c "(" && negb (in_quotes st)).
  { destruct (depth st =? 0) eqn:Hd.
    - apply Z.eqb_eq in Hd. unfold parse_inv. cbn. rewrite Hd.
      repeat split; try lia; eauto.
      intros o [= <-]. apply lower_idem.
    - apply Z.eqb_neq in Hd. unfold parse_inv. cbn.
      repeat split; eauto.
      + intros H. apply Hle. lia.
      + intros H. apply Hge. lia. }
  destruct (Ascii.eqb c ")" && negb (in_quotes st)).
  { destruct (depth st - 1 =? 0) eqn:Hd.
    - apply Z.eqb_eq in Hd. unfold parse_inv. cbn. rewrite Hd.
      destruct (Hge ltac:(lia)) as [o Ho]. rewrite Ho.
      repeat split; try lia; try discriminate.
      + now rewrite lookup_insert_ne by discriminate.
      + apply parse_inv_insert_value; [exact Hinv | eauto].
    - apply Z.eqb_neq in Hd. unfold parse_inv. cbn.
      repeat split; eauto.
      + intros H. apply Hle. lia.
      + intros H. apply Hge. lia. }
  destruct (Ascii.eqb c " " && (depth st =? 0) && negb (in_quotes st)) eqn:Hsp.
  { destruct (Py.truthy (current st)); [|exact Hinv].
    apply andb_true_iff in Hsp as [Hsp _].
    apply andb_true_iff in Hsp as [_ Hd]. apply Z.eqb_eq in Hd.
    unfold parse_inv. cbn. rewrite Hd.
    rewrite (Hle ltac:(lia)).
    repeat split; try lia; try discriminate.
    - now rewrite lookup_insert_ne by discriminate.
    - apply parse_inv_insert_flag. exact Hinv. }
  exact Hinv.
Qed.

Lemma parse_loop_inv (s : string) : forall st : pstate,
  parse_inv st -> parse_inv (parse_loop st s).
Proof.
  induction s as [|c s IH]; intros st H; simpl; [exact H|].
  apply IH, parse_step_inv, H.
Qed.

Lemma parse_finish_inv (st : pstate) :
  parse_inv st ->
  parse_finish st !! None = None
  /\ forall k v, parse_finish st !! Some k = Some v -> Py.lower k = k.
Proof.
  intros Hinv. pose proof Hinv as (_ & _ & Hnone & Hlow & Hkeys).
  unfold parse_finish. destruct (Py.truthy (current st)); [|auto].
  destruct (current_option st) as [o|] eqn:Ho.
  - split; [now rewrite lookup_insert_ne by discriminate|].
    apply parse_inv_insert_value; [exact Hinv | eauto].
  - split; [now rewrite lookup_insert_ne by discriminate|].
    apply parse_inv_insert_flag. exact Hinv.
Qed.

(** X1. Whatever the option clause, balanced or not, every key of the
    dictionary that [_parse_options] returns is a string: [None], the
    value of [current_option] outside a group, is never used as a key. *)
Theorem parse_options_keys_are_names (options_str : string) :
  _parse_options options_str !! None = None.
Proof.
  unfold _parse_options. destruct (Py.truthy options_str); cbn [negb].
  - apply parse_finish_inv, parse_loop_inv, parse_inv_init.
  - apply lookup_empty.
Qed.

(** X2. Every option name in the result of [_parse_options] is in lower
    case, for flags and for valued options alike. *)
Theorem parse_options_names_lower_case (options_str name : string) (v : optval) :
  _parse_options options_str !! Some name = Some v ->
  Py.lower name = name.
Proof.
  unfold _parse_options. destruct (Py.truthy options_str); cbn [negb].
  - apply parse_finish_inv, parse_loop_inv, parse_inv_init.
  - rewrite lookup_empty. discriminate.
Qed.

Lemma parse_options_names_lower_case_witness :
  Py.lower "title" = "title".
Proof.
  exact (parse_options_names_lower_case
           ("TITLE(" ++ Q ++ "My Title" ++ Q ++ ")") "title"
           (VStr (Q ++ "My Title" ++ Q)) ltac:(vm_compute; reflexivity)).
Defined.

(** ** Several options in one clause *)

Lemma parse_options_unfold (s : string) :
  _parse_options s = parse_finish (parse_loop pstate0 s).
Proof. now destruct s. Qed.

Lemma parse_step_base (m : optdict) (st : pstate) (c : ascii) :
  parse_step (add_base m st) c = add_base m (parse_step st c).
Proof.
  unfold parse_step, add_base. cbn.
  destruct (Ascii.eqb c dquote); [reflexivity|].
  destruct (Ascii.eqb c "(" && negb (in_quotes st)).
  { now destruct (depth st =? 0). }
  destruct (Ascii.eqb c ")" && negb (in_quotes st)).
  { destruct (depth st - 1 =? 0); [|reflexivity]. cbn.
    now rewrite insert_union_l. }
  destruct (Ascii.eqb c " " && (depth st =? 0) && negb (in_quotes st));
    [|reflexivity].
  destruct (Py.truthy (current st)); [|reflexivity]. cbn.
  destruct (current_option st); now rewrite insert_union_l.
Qed.

Lemma parse_loop_base (m : optdict) (s : string) : forall st : pstate,
  parse_loop (add_base m st) s = add_base m (parse_loop st s).
Proof.
  induction s as [|c s IH]; intros st; simpl; [reflexivity|].
  now rewrite parse_step_base, IH.
Qed.

Lemma parse_finish_base (m : optdict) (st : pstate) :
  parse_finish (add_base m st) = parse_finish st ∪ m.
Proof.
  unfold parse_finish, add_base. cbn.
  destruct (Py.truthy (current st)); [|reflexivity].
  destruct (current_option st); now rewrite insert_union_l.
Qed.

(** After a balanced clause and a blank the loop is in its initial state
    over the dictionary of that clause. *)
Lemma parse_loop_then_blank (a : string) :
  ~ ends_unbalanced a ->
  parse_loop pstate0 (a ++ " ") = add_base (_parse_options a) pstate0.
Proof.
  intros Hbal. rewrite parse_loop_app, parse_options_unfold.
  pose proof (parse_loop_inv a pstate0 parse_inv_init) as Hinv.
  set (sa := parse_loop pstate0 a) in *.
  assert (Hd : depth sa = 0).
  { destruct (decide (depth sa = 0)) as [H|H]; [exact H|].
    exfalso. apply Hbal. now left. }
  assert (Hq : in_quotes sa = false).
  { destruct (in_quotes sa) eqn:H; [|reflexivity].
    exfalso. apply Hbal. now right. }
  destruct Hinv as (Hle & _).
  specialize (Hle ltac:(lia)).
  cbn [parse_loop]. unfold parse_step, parse_finish, add_base.
  rewrite Hd, Hq, Hle. cbn.
  destruct (Py.truthy (current sa)) eqn:Hcur; cbn.
  - now rewrite (left_id_L ∅ (∪)).
  - rewrite (left_id_L ∅ (∪)). destruct sa as [o cur d q co].
    cbn in *. subst. destruct cur; [reflexivity|discriminate].
Qed.

(** X3. Options are read one after the other and a later one wins: for a
    balanced clause [a], the dictionary of [a], a blank and [b] is the
    dictionary of [b] laid over the dictionary of [a]. *)
Theorem parse_options_later_wins (a b : string) :
  ~ ends_unbalanced a ->
  _parse_options (a ++ " " ++ b) = _parse_options b ∪ _parse_options a.
Proof.
  intros Hbal.
  rewrite (parse_options_unfold (a ++ " " ++ b)), (parse_options_unfold b).
  rewrite <- string_app_assoc, parse_loop_app, parse_loop_then_blank by exact Hbal.
  now rewrite parse_loop_base, parse_finish_base.
Qed.

Lemma parse_options_later_wins_witness :
  _parse_options "bins(10) percent bins(20)"
  = _parse_options "bins(20)" ∪ _parse_options "bins(10) percent".
Proof.
  refine (parse_options_later_wins "bins(10) percent" "bins(20)" _).
  intros [H|H]; vm_compute in H; [congruence|discriminate].
Defined.

(** ** Quoted values and plot titles *)

Lemma rstrip_char_quoted (t : string) :
  str_all (Re.not_ dquote) t = true -> rstrip_char dquote (t ++ Q) = t.
Proof.
  induction t as [|c t IH]; intros H; [reflexivity|].
  simpl in H. apply andb_true_iff in H as [Hc Ht].
  unfold Re.not_ in Hc. apply negb_true_iff in Hc.
  simpl. rewrite (IH Ht). destruct t; [now rewrite Hc | reflexivity].
Qed.

Lemma strip_char_quoted (t : string) :
  str_all (Re.not_ dquote) t = true -> strip_char dquote (Q ++ t ++ Q) = t.
Proof.
  intros H. unfold strip_char. change (Q ++ t ++ Q) with (String dquote (t ++ Q)).
  cbn [lstrip_char]. rewrite Ascii.eqb_refl.
  destruct t as [|c t]; [reflexivity|].
  pose proof H as H'. simpl in H'. apply andb_true_iff in H' as [Hc _].
  unfold Re.not_ in Hc. apply negb_true_iff in Hc.
  cbn [String.append lstrip_char]. rewrite Hc.
  exact (rstrip_char_quoted (String c t) H).
Qed.

(** X4. A quoted value is stored whole, quotes included, whatever blanks,
    commas and parentheses stand between the quotes; and
    [_parse_plot_titles] hands a quoted title back without its quotes. *)
Theorem quoted_value_stored_whole_and_unquoted (name t : string) :
  str_all plain name = true ->
  str_all (Re.not_ dquote) t = true ->
  _parse_options (name ++ "(" ++ Q ++ t ++ Q ++ ")")
  = {[ Some (Py.lower (Py.strip name)) := VStr (Q ++ t ++ Q) ]}
  /\ forall dx dy dt : string,
      _parse_plot_titles (_parse_options ("title(" ++ Q ++ t ++ Q ++ ")"))
        dx dy dt
      = (VStr (strip_char dquote dx), VStr (strip_char dquote dy), VStr t).
Proof.
  intros Hn Ht.
  assert (Hparse : forall n : string,
             str_all plain n = true ->
             _parse_options (n ++ "(" ++ Q ++ t ++ Q ++ ")")
             = {[ Some (Py.lower (Py.strip n)) := VStr (Q ++ t ++ Q) ]}).
  { intros n Hplain. rewrite parse_options_unfold.
    rewrite <- string_app_assoc, parse_loop_app, parse_loop_open by exact Hplain.
    change (Q ++ t ++ Q ++ ")") with (String dquote (t ++ Q ++ ")")).
    cbn [parse_loop]. rewrite parse_loop_app.
    rewrite (parse_loop_quoted t) by (reflexivity || exact Ht).
    cbn. change (1 - 1 =? 0) with true. unfold parse_finish. cbn.
    now rewrite insert_empty. }
  split; [exact (Hparse name Hn)|].
  intros dx dy dt.
  change ("title(" ++ Q ++ t ++ Q ++ ")")
    with ("title" ++ "(" ++ Q ++ t ++ Q ++ ")").
  rewrite (Hparse "title" eq_refl).
  unfold _parse_plot_titles.
  change (Py.lower (Py.strip "title")) with "title".
  rewrite lookup_singleton_eq.
  rewrite !lookup_singleton_ne by discriminate.
  cbn [from_option id unquote]. now rewrite strip_char_quoted.
Qed.

Lemma quoted_value_stored_whole_and_unquoted_witness :
  _parse_plot_titles
    (_parse_options ("title(" ++ Q ++ "A (B), C" ++ Q ++ ")")) "x" "y" "t"
  = (VStr "x", VStr "y", VStr "A (B), C").
Proof.
  exact (proj2 (quoted_value_stored_whole_and_unquoted "title" "A (B), C"
                  eq_refl eq_refl) "x" "y" "t").
Defined.

(** ** Trimming *)

Lemma isspace_not (c x : ascii) :
  Py.isspace c = true -> Py.isspace x = false -> Ascii.eqb c x = false.
Proof.
  intros Hc Hx. destruct (Ascii.eqb c x) eqn:E; [|reflexivity].
  apply Ascii.eqb_eq in E. congruence.
Qed.

Lemma lstrip_decomp (s : string) :
  exists ws : string, s = ws ++ Py.lstrip s /\ str_all Py.isspace ws = true.
Proof.
  induction s as [|c s (ws & Hs & Hws)]; [now exists ""|].
  simpl. destruct (Py.isspace c) eqn:Hc.
  - exists (String c ws). simpl. rewrite Hc, Hws. now rewrite <- Hs.
  - now exists "".
Qed.

Lemma rstrip_cons (c : ascii) (r : string) :
  Py.rstrip (String c r) = ""
  \/ Py.rstrip (String c r) = String c (Py.rstrip r).
Proof.
  simpl. destruct (Py.rstrip r); [|now right].
  destruct (Py.isspace c); [now left | now right].
Qed.

Lemma rstrip_cons_nonspace (c : ascii) (r : string) :
  Py.isspace c = false -> Py.rstrip (String c r) = String c (Py.rstrip r).
Proof.
  intros Hc. simpl. destruct (Py.rstrip r); [now rewrite Hc | reflexivity].
Qed.

Lemma rstrip_decomp (s : string) :
  exists ws : string, s = Py.rstrip s ++ ws /\ str_all Py.isspace ws = true.
Proof.
  induction s as [|c s (ws & Hs & Hws)]; [now exists ""|].
  simpl. destruct (Py.rstrip s) eqn:Hr.
  - simpl in Hs. subst ws. destruct (Py.isspace c) eqn:Hc.
    + exists (String c s). simpl. now rewrite Hc, Hws.
    + now exists s.
  - exists ws. simpl. split; [now rewrite Hs at 1|exact Hws].
Qed.

Lemma rstrip_idem (s : string) : Py.rstrip (Py.rstrip s) = Py.rstrip s.
Proof.
  induction s as [|c s IH]; [reflexivity|].
  simpl. destruct (Py.rstrip s) as [|c' r'] eqn:Hr.
  - destruct (Py.isspace c) eqn:Hc; [reflexivity|]. simpl. now rewrite Hc.
  - change (Py.rstrip (String c (String c' r')))
      with (match Py.rstrip (String c' r') with
            | "" => if Py.isspace c then "" else String c ""
            | r0 => String c r0
            end).
    now rewrite IH.
Qed.

Lemma rstrip_head (s : string) :
  Py.rstrip s = "" \/ head_char (Py.rstrip s) = head_char s.
Proof.
  destruct s as [|c r]; [now left|].
  destruct (rstrip_cons c r) as [->| ->]; [now left | now right].
Qed.

Lemma lstrip_head_nonspace (s : string) : head_not Py.isspace (Py.lstrip s).
Proof.
  induction s as [|c s IH]; [exact I|].
  simpl. destruct (Py.isspace c) eqn:Hc; [exact IH | exact Hc].
Qed.

Lemma lstrip_fixed (s : string) : head_not Py.isspace s -> Py.lstrip s = s.
Proof. destruct s as [|c r]; [reflexivity|]. simpl. now intros ->. Qed.

Lemma rstrip_head_nonspace (s : string) :
  head_not Py.isspace s -> head_not Py.isspace (Py.rstrip s).
Proof.
  destruct s as [|c r]; [intros _; exact I|]. simpl. intros Hc.
  destruct (Py.rstrip r); [now rewrite Hc | exact Hc].
Qed.

Lemma strip_idem (s : string) : Py.strip (Py.strip s) = Py.strip s.
Proof.
  unfold Py.strip.
  rewrite (lstrip_fixed (Py.rstrip (Py.lstrip s)))
    by apply rstrip_head_nonspace, lstrip_head_nonspace.
  apply rstrip_idem.
Qed.

Lemma lstrip_space_prefix (ws x : string) :
  str_all Py.isspace ws = true -> Py.lstrip (ws ++ x) = Py.lstrip x.
Proof.
  induction ws as [|c ws IH]; intros H; [reflexivity|].
  simpl in H. apply andb_true_iff in H as [Hc Hws].
  simpl. rewrite Hc. now apply IH.
Qed.

(** ** [_split_command_options] once more *)

Lemma split_options_spec (command : string) :
  split_as_specified command (_split_command_options command).
Proof.
  unfold _split_command_options.
  destruct (Py.contains_char "," command) eqn:Hc; cbn [negb].
  - apply (split_loop_as_specified command "" 0 false); [reflexivity|].
    intros j Hj. cbn in Hj. lia.
  - right. split; [|reflexivity].
    intros i [Hget _]. exact (contains_char_get _ _ i Hc Hget).
Qed.

Lemma get_take (s : string) : forall (i j : nat) (c : ascii),
  String.get j (Py.take i s) = Some c ->
  String.get j s = Some c /\ Py.take j (Py.take i s) = Py.take j s.
Proof.
  induction s as [|x s IH]; intros i j c H.
  - destruct i; discriminate H.
  - destruct i as [|i]; [discriminate H|]. simpl in H.
    destruct j as [|j]; [now split|].
    destruct (IH i j c H) as [Hg Ht]. split; [exact Hg|].
    simpl. now rewrite Ht.
Qed.

Lemma get_app_l (a b : string) : forall (j : nat) (c : ascii),
  String.get j a = Some c ->
  String.get j (a ++ b) = Some c /\ Py.take j (a ++ b) = Py.take j a.
Proof.
  induction a as [|x a IH]; intros j c H; [discriminate H|].
  destruct j as [|j]; [now split|]. simpl in H.
  destruct (IH j c H) as [Hg Ht]. split; [exact Hg|]. simpl. now rewrite Ht.
Qed.

Lemma spec_scan_space_prefix (ws x : string) : forall (d : Z) (q : bool),
  str_all Py.isspace ws = true -> spec_scan d q (ws ++ x) = spec_scan d q x.
Proof.
  induction ws as [|c ws IH]; intros d q H; [reflexivity|].
  simpl in H. apply andb_true_iff in H as [Hc Hws]. simpl.
  rewrite (isspace_not c dquote Hc eq_refl),
          (isspace_not c "(" Hc eq_refl), (isspace_not c ")" Hc eq_refl).
  destruct q; now apply IH.
Qed.

Lemma top_level_comma_take (command : string) (i j : nat) :
  top_level_comma (Py.take i command) j -> top_level_comma command j.
Proof.
  intros [Hget Hscan]. destruct (get_take _ _ _ _ Hget) as [Hg Ht].
  split; [exact Hg | now rewrite <- Ht].
Qed.

Lemma top_level_comma_app_l (a b : string) (j : nat) :
  top_level_comma a j -> top_level_comma (a ++ b) j.
Proof.
  intros [Hget Hscan]. destruct (get_app_l a b _ _ Hget) as [Hg Ht].
  split; [exact Hg | now rewrite Ht].
Qed.

Lemma top_level_comma_space_prefix (ws x : string) (j : nat) :
  str_all Py.isspace ws = true ->
  top_level_comma x j -> top_level_comma (ws ++ x) (String.length ws + j).
Proof.
  intros Hws [Hget Hscan]. split.
  - clear Hws Hscan. induction ws as [|c ws IH]; [exact Hget | exact IH].
  - assert (Ht : Py.take (String.length ws + j) (ws ++ x) = ws ++ Py.take j x).
    { clear. induction ws as [|c ws IH]; [reflexivity|]. simpl. now rewrite IH. }
    now rewrite Ht, spec_scan_space_prefix.
Qed.

Lemma top_level_comma_strip (p : string) (j : nat) :
  top_level_comma (Py.strip p) j -> exists j' : nat, top_level_comma p j'.
Proof.
  intros H. unfold Py.strip in H.
  destruct (lstrip_decomp p) as (ws & Hp & Hws).
  destruct (rstrip_decomp (Py.lstrip p)) as (ws' & Hq & _).
  apply (top_level_comma_app_l _ ws') in H. rewrite <- Hq in H.
  apply (top_level_comma_space_prefix ws _ _ Hws) in H. rewrite <- Hp in H.
  eauto.
Qed.

(** X6. The main clause that [_split_command_options] returns has no
    top-level comma left: split again, it comes back whole with an empty
    option clause.  Both parts of a result are trimmed. *)
Theorem split_command_options_main_is_stable (command : string) :
  let r := _split_command_options command in
  _split_command_options (fst r) = (fst r, "")
  /\ Py.strip (fst r) = fst r /\ Py.strip (snd r) = snd r.
Proof.
  intros r.
  assert (Hshape : exists p q : string,
             r = (Py.strip p, Py.strip q)
             /\ forall j : nat, ~ top_level_comma p j).
  { destruct (split_options_spec command) as [(i & _ & Hno & Hr) | (Hno & Hr)].
    - exists (Py.take i command), (Py.drop (S i) command). split; [exact Hr|].
      intros j Hj. pose proof Hj as [Hget _].
      apply (Hno j); [|exact (top_level_comma_take _ _ _ Hj)].
      apply get_lt_length in Hget.
      assert (Hlen : forall (s : string) (n : nat),
                 (String.length (Py.take n s) <= n)%nat).
      { clear. induction s as [|x s IH]; intros [|n]; simpl; try lia.
        specialize (IH n). lia. }
      specialize (Hlen command i). lia.
    - exists command, "". split; [exact Hr | exact Hno]. }
  destruct Hshape as (p & q & Hr & Hno). fold r. rewrite Hr. cbn [fst snd].
  split; [|split; apply strip_idem].
  destruct (split_options_spec (Py.strip p)) as [(i & Hi & _) | (_ & ->)].
  - destruct (top_level_comma_strip p i Hi) as [j Hj]. now destruct (Hno j).
  - now rewrite strip_idem.
Qed.

(** ** [parse_command] and [_split_command_options] *)

Lemma scan_char_no_group (c : ascii) (st : Z * bool) :
  no_group_char c = true -> scan_char c st = st.
Proof.
  unfold no_group_char. intros H. apply negb_true_iff in H.
  apply orb_false_iff in H as [H Hcl]. apply orb_false_iff in H as [Hq Ho].
  destruct st as [d q]. unfold scan_char. now rewrite Hq, Ho, Hcl.
Qed.

Lemma drop_S_app_length (pre rest : string) (c : ascii) :
  Py.drop (S (String.length pre)) (pre ++ String c rest) = rest.
Proof.
  induction pre as [|x pre IH]; simpl; [now destruct rest | exact IH].
Qed.

Lemma split_loop_no_group (rest : string) : forall pre : string,
  str_all no_group_char rest = true ->
  split_loop (pre ++ rest) (String.length pre) 0 false rest
  = match split_comma1 rest with
    | (a, Some b) => (Py.strip (pre ++ a), Py.strip b)
    | (a, None) => (Py.strip (pre ++ a), "")
    end.
Proof.
  induction rest as [|c rest IH]; intros pre H; [reflexivity|].
  simpl in H. apply andb_true_iff in H as [Hc Hrest].
  cbn [split_loop split_comma1]. rewrite (scan_char_no_group c _ Hc).
  cbn [Z.eqb negb]. rewrite andb_true_r.
  destruct (Ascii.eqb c ",") eqn:Hcomma.
  - apply Ascii.eqb_eq in Hcomma. subst c.
    now rewrite take_app_length, drop_S_app_length, string_app_nil_r.
  - specialize (IH (pre ++ String c "") Hrest).
    rewrite string_length_snoc in IH.
    replace ((pre ++ String c "") ++ rest) with (pre ++ String c rest) in IH
      by (now rewrite string_app_assoc).
    rewrite IH. destruct (split_comma1 rest) as [a [b|]];
      now rewrite string_app_assoc.
Qed.

(** X5. On a command without double quotes and parentheses the quote-aware
    splitter and the plain [parse_command] cut at the same comma: both
    give the same main clause, and the same option clause but for the
    [None] that [parse_command] returns where no comma is. *)
Theorem split_command_options_agrees_with_parse_command (command : string) :
  str_all no_group_char command = true ->
  _split_command_options command
  = (fst (parse_command command), default "" (snd (parse_command command))).
Proof.
  intros H. unfold _split_command_options, parse_command.
  destruct (Py.contains_char "," command); cbn [negb]; [|reflexivity].
  change (split_loop command 0 0 false command)
    with (split_loop ("" ++ command) (String.length "") 0 false command).
  rewrite (split_loop_no_group command "" H).
  now destruct (split_comma1 command) as [a [b|]].
Qed.

Lemma split_command_options_agrees_with_parse_command_witness :
  _split_command_options "summarize x y, detail , x"
  = (fst (parse_command "summarize x y, detail , x"),
     default "" (snd (parse_command "summarize x y, detail , x"))).
Proof.
  exact (split_command_options_agrees_with_parse_command
           "summarize x y, detail , x" eq_refl).
Defined.

(** ** [_strip_stata_comments] *)

#[local] Arguments Ascii.eqb : simpl never.

Lemma startswith_star_head (s : string) :
  Py.startswith "*" s = true <-> head_char s = Some "*"%char.
Proof.
  destruct s as [|c r]; simpl; [split; discriminate|].
  rewrite andb_true_r. split.
  - intros H. apply Ascii.eqb_eq in H. now subst.
  - intros [= ->]. reflexivity.
Qed.

Lemma startswith_slash_head (x y : string) :
  head_char x = head_char y -> Py.startswith "/" x = Py.startswith "/" y.
Proof.
  destruct x, y; simpl; intros H; try discriminate; [reflexivity|].
  now injection H as ->.
Qed.

Lemma startswith_dslash (c : ascii) (r : string) :
  Py.startswith "//" (String c r) = Ascii.eqb "/" c && Py.startswith "/" r.
Proof. reflexivity. Qed.

Lemma strip_comments_loop_cons (q : bool) (c : ascii) (r : string) :
  strip_comments_loop q (String c r)
  = if Ascii.eqb c dquote then String c (strip_comments_loop (negb q) r)
    else if negb q && (Ascii.eqb "/" c && Py.startswith "/" r) then ""
    else String c (strip_comments_loop q r).
Proof. reflexivity. Qed.

Lemma strip_comments_loop_head (s : string) : forall q : bool,
  strip_comments_loop q s = ""
  \/ head_char (strip_comments_loop q s) = head_char s.
Proof.
  destruct s as [|c r]; intros q; [now left|].
  rewrite strip_comments_loop_cons.
  destruct (Ascii.eqb c dquote); [now right|].
  destruct (negb q && (Ascii.eqb "/" c && Py.startswith "/" r));
    [now left | now right].
Qed.

(** What the loop returns has no comment left. *)
Lemma strip_comments_loop_idem (s : string) : forall q : bool,
  strip_comments_loop q (strip_comments_loop q s) = strip_comments_loop q s.
Proof.
  induction s as [|c r IH]; intros q; [reflexivity|].
  rewrite strip_comments_loop_cons.
  destruct (Ascii.eqb c dquote) eqn:Hq.
  - rewrite strip_comments_loop_cons. now rewrite Hq, IH.
  - destruct (negb q && (Ascii.eqb "/" c && Py.startswith "/" r)) eqn:Ht;
      [reflexivity|].
    rewrite strip_comments_loop_cons. rewrite Hq.
    assert (Ht' : negb q && (Ascii.eqb "/" c
                             && Py.startswith "/" (strip_comments_loop q r))
                  = false).
    { destruct (strip_comments_loop_head r q) as [-> | Hh].
      - cbn [Py.startswith]. now rewrite !andb_false_r.
      - now rewrite (startswith_slash_head _ _ Hh). }
    now rewrite Ht', IH.
Qed.

Lemma strip_comments_loop_space_prefix (ws x : string) : forall q : bool,
  str_all Py.isspace ws = true ->
  strip_comments_loop q (ws ++ x) = ws ++ strip_comments_loop q x.
Proof.
  induction ws as [|c ws IH]; intros q H; [reflexivity|].
  cbn [str_all] in H. apply andb_true_iff in H as [Hc Hws].
  cbn [String.append]. rewrite strip_comments_loop_cons.
  rewrite (isspace_not c dquote Hc eq_refl).
  rewrite (Ascii.eqb_sym "/" c), (isspace_not c "/" Hc eq_refl).
  rewrite andb_false_r. now rewrite IH.
Qed.

Lemma strip_comments_loop_rstrip (y : string) : forall q : bool,
  strip_comments_loop q y = y ->
  strip_comments_loop q (Py.rstrip y) = Py.rstrip y.
Proof.
  induction y as [|c r IH]; intros q H; [reflexivity|].
  destruct (rstrip_cons c r) as [-> | Hr]; [reflexivity|]. rewrite Hr.
  rewrite strip_comments_loop_cons in H |- *.
  destruct (Ascii.eqb c dquote) eqn:Hq.
  - injection H as H. now rewrite (IH _ H).
  - destruct (negb q && (Ascii.eqb "/" c && Py.startswith "/" r)) eqn:Ht;
      [discriminate H|].
    injection H as H.
    assert (Ht' : negb q && (Ascii.eqb "/" c && Py.startswith "/" (Py.rstrip r))
                  = false).
    { destruct (rstrip_head r) as [-> | Hh].
      - cbn [Py.startswith]. now rewrite !andb_false_r.
      - now rewrite (startswith_slash_head _ _ Hh). }
    now rewrite Ht', (IH _ H).
Qed.

Lemma string_app_inv_head (a x y : string) : a ++ x = a ++ y -> x = y.
Proof.
  induction a as [|c a IH]; simpl; intros H; [exact H|].
  injection H as H. now apply IH.
Qed.

(** X7. Stripping comments is idempotent: what [_strip_stata_comments]
    returns is trimmed, holds no comment, and comes back unchanged from a
    second pass. *)
Theorem strip_stata_comments_idempotent (command : string) :
  _strip_stata_comments (_strip_stata_comments command)
  = _strip_stata_comments command.
Proof.
  destruct (Py.startswith "*" (Py.strip command)
            || Py.startswith "//" (Py.strip command)) eqn:Hfull.
  { assert (H : _strip_stata_comments command = "")
      by (unfold _strip_stata_comments; now rewrite Hfull).
    now rewrite H. }
  set (x := strip_comments_loop false command).
  set (r := Py.strip x).
  assert (Hdef : _strip_stata_comments command = r)
    by (unfold _strip_stata_comments; now rewrite Hfull).
  rewrite Hdef.
  apply orb_false_iff in Hfull as [Hstar _].
  (* the result is a fixed point of the loop *)
  assert (Hfix : strip_comments_loop false r = r).
  { unfold r, Py.strip. apply strip_comments_loop_rstrip.
    destruct (lstrip_decomp x) as (ws & Hx & Hws).
    pose proof (strip_comments_loop_idem command false) as Hid. fold x in Hid.
    apply (string_app_inv_head ws).
    rewrite <- strip_comments_loop_space_prefix by exact Hws.
    now rewrite <- Hx. }
  (* it does not start with a comment marker *)
  assert (Hslash : Py.startswith "//" r = false).
  { destruct (Py.startswith "//" r) eqn:E; [|reflexivity].
    destruct r as [|c r']; [discriminate E|].
    rewrite strip_comments_loop_cons in Hfix.
    rewrite startswith_dslash in E. rewrite E in Hfix.
    apply andb_true_iff in E as [Hc _].
    apply Ascii.eqb_eq in Hc. subst c.
    change (Ascii.eqb "/" dquote) with false in Hfix. discriminate Hfix. }
  assert (Hstar' : Py.startswith "*" r = false).
  { destruct (Py.startswith "*" r) eqn:E; [|reflexivity].
    apply startswith_star_head in E. exfalso.
    assert (Hhead : head_char (Py.lstrip command) = Some "*"%char).
    { destruct (lstrip_decomp command) as (ws & Hc & Hws).
      assert (Hx : x = ws ++ strip_comments_loop false (Py.lstrip command)).
      { unfold x. rewrite Hc at 1.
        now apply strip_comments_loop_space_prefix. }
      unfold r, Py.strip in E. rewrite Hx, lstrip_space_prefix in E by exact Hws.
      destruct (strip_comments_loop_head (Py.lstrip command) false)
        as [Hz | Hz].
      - rewrite Hz in E. discriminate E.
      - pose proof (lstrip_head_nonspace command) as Hns.
        assert (Hns' : head_not Py.isspace
                         (strip_comments_loop false (Py.lstrip command))).
        { destruct (strip_comments_loop false (Py.lstrip command)) as [|a z];
            [exact I|].
          destruct (Py.lstrip command) as [|b w]; [discriminate Hz|].
          simpl in Hz. injection Hz as ->. exact Hns. }
        rewrite (lstrip_fixed _ Hns') in E.
        destruct (rstrip_head (strip_comments_loop false (Py.lstrip command)))
          as [Hr | Hr].
        + rewrite Hr in E. discriminate E.
        + now rewrite <- Hz, <- Hr. }
    assert (Hkeep : Py.startswith "*" (Py.strip command) = true).
    { unfold Py.strip. destruct (Py.lstrip command) as [|c w];
        [discriminate Hhead|].
      injection Hhead as ->.
      now rewrite (rstrip_cons_nonspace "*" w eq_refl). }
    congruence. }
  unfold _strip_stata_comments.
  assert (Hr : Py.strip r = r) by apply strip_idem.
  now rewrite Hr, Hstar', Hslash, Hfix.
Qed.

Lemma contains_char_startswith2 (c : ascii) (s : string) :
  Py.contains_char c s = false ->
  Py.startswith (String c (String c "")) s = false.
Proof.
  destruct s as [|a r]; [reflexivity|]. simpl. intros H.
  apply orb_false_iff in H as [Ha _].
  rewrite Ascii.eqb_sym in Ha. now rewrite Ha.
Qed.

Lemma strip_comments_loop_no_slash (s : string) : forall q : bool,
  Py.contains_char "/" s = false -> strip_comments_loop q s = s.
Proof.
  induction s as [|c r IH]; intros q H; [reflexivity|].
  cbn [Py.contains_char] in H. apply orb_false_iff in H as [Hc Hr].
  rewrite strip_comments_loop_cons.
  rewrite (Ascii.eqb_sym "/" c), Hc, andb_false_r.
  destruct (Ascii.eqb c dquote); now rewrite IH.
Qed.

Lemma contains_char_lstrip (c : ascii) (s : string) :
  Py.contains_char c s = false -> Py.contains_char c (Py.lstrip s) = false.
Proof.
  induction s as [|a r IH]; intros H; [reflexivity|]. simpl.
  destruct (Py.isspace a); [|exact H].
  simpl in H. apply orb_false_iff in H as [_ H]. now apply IH.
Qed.

Lemma contains_char_rstrip (c : ascii) (s : string) :
  Py.contains_char c s = false -> Py.contains_char c (Py.rstrip s) = false.
Proof.
  induction s as [|a r IH]; intros H; [reflexivity|].
  simpl in H. apply orb_false_iff in H as [Ha Hr].
  destruct (rstrip_cons a r) as [-> | ->]; [reflexivity|].
  simpl. now rewrite Ha, (IH Hr).
Qed.

(** X8. A command that holds no slash and does not start (after blanks)
    with a star is only trimmed by [_strip_stata_comments]: nothing of its
    text is taken for a comment. *)
Theorem strip_stata_comments_keeps_comment_free (command : string) :
  Py.contains_char "/" command = false ->
  Py.startswith "*" (Py.strip command) = false ->
  _strip_stata_comments command = Py.strip command.
Proof.
  intros Hslash Hstar. unfold _strip_stata_comments.
  rewrite Hstar, (contains_char_startswith2 "/" (Py.strip command)).
  - cbn [orb]. now rewrite strip_comments_loop_no_slash.
  - unfold Py.strip. now apply contains_char_rstrip, contains_char_lstrip.
Qed.

Lemma strip_stata_comments_keeps_comment_free_witness :
  _strip_stata_comments "  gen z = x * y  " = "gen z = x * y".
Proof.
  exact (strip_stata_comments_keeps_comment_free "  gen z = x * y  "
           eq_refl eq_refl).
Defined.

(** ** Logical commands and the history *)

(** X9. When no line ends in a backslash, every non-blank line is one
    logical command: joining continuations changes nothing. *)
Theorem join_continuations_without_marker (raw : list string) :
  Forall (fun cmd => Py.endswith_char "\" cmd = false) raw ->
  join_continuations [] raw = raw.
Proof.
  induction raw as [|cmd raw IH]; intros H; [reflexivity|].
  apply Forall_cons in H as [Hcmd Hraw].
  cbn [join_continuations]. rewrite Hcmd. cbn. now rewrite (IH Hraw).
Qed.

Lemma join_continuations_without_marker_witness :
  join_continuations [] ["summarize x"; "gen z = x + y"]
  = ["summarize x"; "gen z = x + y"].
Proof.
  refine (join_continuations_without_marker _ _).
  repeat constructor.
Defined.

(** ** Dispatch *)

(** X11. The keyword table decides between handler and scripting
    fallback by the lower-cased first word and nothing else: the fallback
    is taken only for a word that is no key of the table, and a handler
    only for the key it is stored under; either way the command text is
    passed on unchanged. *)
Theorem dispatch_table_decides (reg : gmap string handler)
  (exec_command : string) :
  (forall c : string,
      dispatch reg exec_command = RFallback c ->
      c = exec_command
      /\ exists (w : string) (ws : list string),
          Py.split_ws exec_command = w :: ws /\ reg !! Py.lower w = None)
  /\ (forall (h : handler) (c : string),
         dispatch reg exec_command = RHandler h c ->
         c = exec_command
         /\ exists (w : string) (ws : list string),
             Py.split_ws exec_command = w :: ws /\ reg !! Py.lower w = Some h).
Proof.
  unfold dispatch.
  destruct (Py.startswith "!" exec_command); [split; intros; discriminate|].
  destruct (Py.startswith ">" exec_command); [split; intros; discriminate|].
  destruct (Py.startswith "bash " exec_command); [split; intros; discriminate|].
  destruct (Py.startswith "cd " exec_command); [split; intros; discriminate|].
  destruct (String.eqb exec_command "pwd" || String.eqb exec_command "ls");
    [split; intros; discriminate|].
  destruct (Py.split_ws exec_command) as [|w ws]; [split; intros; discriminate|].
  destruct (reg !! Py.lower w) as [h'|] eqn:Hl; split; intros; try discriminate.
  - match goal with H : RHandler _ _ = RHandler _ _ |- _ =>
      injection H as <- <- end.
    split; [reflexivity|]. now exists w, ws.
  - match goal with H : RFallback _ = RFallback _ |- _ => injection H as <- end.
    split; [reflexivity|]. now exists w, ws.
Qed.

Lemma dispatch_table_decides_witness :
  "SUMMARIZE x" = "SUMMARIZE x"
  /\ exists (w : string) (ws : list string),
      Py.split_ws "SUMMARIZE x" = w :: ws
      /\ setup_command_registry !! Py.lower w = Some H_cmd_summarize.
Proof.
  exact (proj2 (dispatch_table_decides setup_command_registry "SUMMARIZE x")
           H_cmd_summarize "SUMMARIZE x" ltac:(vm_compute; reflexivity)).
Defined.

(** X12. The [by] rewrite leaves alone every command that does not start
    with the two letters [by]. *)
Theorem by_rewrite_only_touches_by (cmd : string) :
  Py.startswith "by" cmd = false -> by_rewrite cmd = cmd.
Proof.
  intros H. unfold by_rewrite.
  assert (Hm : Re.match_ by_pattern cmd = None).
  { unfold Re.match_, by_pattern. destruct cmd as [|c1 [|c2 r]].
    - reflexivity.
    - cbn. now destruct (Ascii.eqb c1 "b").
    - cbn [Py.startswith] in H. rewrite andb_true_r in H.
      rewrite (Ascii.eqb_sym "b" c1), (Ascii.eqb_sym "y" c2) in H.
      cbn -[Re.star Ascii.eqb].
      destruct (Ascii.eqb c1 "b"); [|reflexivity].
      cbn [andb] in H. now rewrite H. }
  now rewrite Hm.
Qed.

Lemma by_rewrite_only_touches_by_witness :
  by_rewrite "tabulate firm: year" = "tabulate firm: year".
Proof. exact (by_rewrite_only_touches_by "tabulate firm: year" eq_refl). Defined.

(** ** More of [StoredEstimates] *)

(** X13. [store] touches one name only: every other estimate is found as
    before, and after it [name in estimates] holds exactly for that name
    and the names that were stored already. *)
Theorem store_leaves_other_estimates :
  forall (Model : Type) (se : StoredEstimates.t Model) (now : Z)
         (name other : string) (m : Model) (t d : string) (i : list string)
         (o : option optdict),
    let se' := StoredEstimates.store now se name m t d i o in
    (other <> name -> StoredEstimates.get se' other = StoredEstimates.get se other)
    /\ StoredEstimates.contains se' other
       = bool_decide (other = name) || StoredEstimates.contains se other.
Proof.
  intros. unfold se', StoredEstimates.store, StoredEstimates.get,
    StoredEstimates.contains. cbn [StoredEstimates.estimates].
  split.
  - intros Hne. now rewrite lookup_insert_ne by congruence.
  - destruct (decide (other = name)) as [->|Hne].
    + rewrite lookup_insert_eq.
      rewrite (bool_decide_eq_true_2 (name = name) eq_refl). cbn [orb].
      apply bool_decide_eq_true_2. eauto.
    + rewrite lookup_insert_ne by congruence.
      now rewrite (bool_decide_eq_false_2 (other = name) Hne).
Qed.

Lemma store_leaves_other_estimates_witness :
  StoredEstimates.get
    (StoredEstimates.store 1 (StoredEstimates.store 0 StoredEstimates.init
                                "a" 1 "ols" "y" ["x"] None)
       "b" 2 "iv" "y" ["x"] None) "a"
  = StoredEstimates.get
      (StoredEstimates.store 0 StoredEstimates.init "a" 1 "ols" "y" ["x"] None)
      "a".
Proof.
  exact (proj1 (store_leaves_other_estimates Z
                  (StoredEstimates.store 0 StoredEstimates.init
                     "a" 1 "ols" "y" ["x"] None)
                  1 "b" "a" 2 "iv" "y" ["x"] None) ltac:(discriminate)).
Defined.

(** X14. [drop] removes the estimate but not the pointer to it: after
    dropping the current estimate, [current_name] still holds its name,
    [get] finds nothing under it, the other estimates are untouched, and
    [cmd_coefplot] without a name has nothing to draw even when other
    estimates are stored. *)
Theorem drop_leaves_current_name_dangling :
  forall (Model Column : Type) (se : StoredEstimates.t Model) (now : Z)
         (name : string) (m : Model) (t d : string) (i : list string)
         (o : option optdict) (df : gmap string Column)
         (lastreg : option Model),
    let se' :=
      StoredEstimates.drop (StoredEstimates.store now se name m t d i o) name in
    StoredEstimates.get se' name = None
    /\ StoredEstimates.current_name se' = Some name
    /\ (forall other : string,
           other <> name ->
           StoredEstimates.get se' other = StoredEstimates.get se other)
    /\ (name <> "" ->
        cmd_coefplot (Gui df se' lastreg) "coefplot"
        = ("No stored models found. Run regressions first.", [])).
Proof.
  intros. unfold se', StoredEstimates.drop, StoredEstimates.store,
    StoredEstimates.get.
  cbn [StoredEstimates.estimates StoredEstimates.current_name].
  split; [apply lookup_delete_eq|]. split; [reflexivity|]. split.
  - intros other Hne.
    now rewrite lookup_delete_ne, lookup_insert_ne by congruence.
  - intros Hne. rewrite cmd_coefplot_no_name. unfold current_or_lastreg.
    cbn [_stored_estimates StoredEstimates.current_name].
    rewrite truthy_ne by exact Hne. unfold StoredEstimates.get.
    cbn [StoredEstimates.estimates]. now rewrite lookup_delete_eq.
Qed.

Lemma drop_leaves_current_name_dangling_witness :
  cmd_coefplot
    (Gui (∅ : gmap string (list Z))
       (StoredEstimates.drop
          (StoredEstimates.store 1
             (StoredEstimates.store 0 StoredEstimates.init
                "a" 1 "ols" "y" ["x"] None)
             "b" 2 "ols" "y" ["x"] None) "b") None)
    "coefplot"
  = ("No stored models found. Run regressions first.", []).
Proof.
  exact (proj2 (proj2 (proj2
           (drop_leaves_current_name_dangling Z (list Z)
              (StoredEstimates.store 0 StoredEstimates.init
                 "a" 1 "ols" "y" ["x"] None)
              1 "b" 2 "ols" "y" ["x"] None ∅ None)))
           ltac:(discriminate)).
Defined.

(** X15. [add_stat] on a name that is not stored does nothing, without an
    error; on a stored name it sets that one statistic of that one
    estimate; [current_name] is never moved by it. *)
Theorem add_stat_only_on_stored_name :
  forall (Model : Type) (se : StoredEstimates.t Model)
         (name stat_name : string) (value : Z),
    let se' := StoredEstimates.add_stat se name stat_name value in
    (StoredEstimates.get se name = None -> se' = se)
    /\ (forall e : StoredEstimates.estimate Model,
           StoredEstimates.get se name = Some e ->
           StoredEstimates.get se' name
           = Some (StoredEstimates.Estimate
                     (StoredEstimates.model e) (StoredEstimates.model_type e)
                     (StoredEstimates.depvar e) (StoredEstimates.indepvars e)
                     (StoredEstimates.est_options e) (StoredEstimates.timestamp e)
                     (<[stat_name := value]> (StoredEstimates.stats e))))
    /\ (forall other : string,
           other <> name ->
           StoredEstimates.get se' other = StoredEstimates.get se other)
    /\ StoredEstimates.current_name se' = StoredEstimates.current_name se.
Proof.
  intros. unfold se', StoredEstimates.add_stat, StoredEstimates.get.
  cbn [StoredEstimates.estimates StoredEstimates.current_name].
  split; [|split; [|split; [|reflexivity]]].
  - intros Hnone. destruct se as [est ord cur]. cbn in *. f_equal.
    apply map_eq. intros k. rewrite lookup_alter.
    destruct (decide (name = k)) as [<-|]; [now rewrite Hnone | reflexivity].
  - intros e He. rewrite lookup_alter.
    destruct (decide (name = name)); [|congruence]. now rewrite He.
  - intros other Hne. rewrite lookup_alter.
    destruct (decide (name = other)); [congruence | reflexivity].
Qed.

Lemma add_stat_only_on_stored_name_witness :
  StoredEstimates.add_stat (StoredEstimates.init : StoredEstimates.t Z)
    "m1" "r2" 7
  = StoredEstimates.init.
Proof.
  exact (proj1 (add_stat_only_on_stored_name Z StoredEstimates.init
                  "m1" "r2" 7) eq_refl).
Defined.

(** ** Name lists of the post-estimation commands *)

Lemma esttab_resolve_all {Model : Type} (se : StoredEstimates.t Model)
  (names : list string) :
  (forall n : string, In n names -> exists e, StoredEstimates.get se n = Some e) ->
  exists ests : list (string * StoredEstimates.estimate Model),
    esttab_resolve se names = inl ests
    /\ map fst ests = names
    /\ forall n e, In (n, e) ests -> StoredEstimates.get se n = Some e.
Proof.
  induction names as [|x names IH]; intros H.
  - exists []. repeat split. intros n e [].
  - destruct (H x (or_introl eq_refl)) as [e He].
    destruct IH as (ests & Hr & Hm & Hall); [intros n Hn; apply H; now right|].
    exists ((x, e) :: ests). cbn [esttab_resolve]. rewrite He, Hr.
    split; [reflexivity|]. split; [cbn; now rewrite Hm|].
    intros n e' [[= <- <-]|Hin]; [exact He | now apply Hall].
Qed.

(** The loop of [cmd_esttab] stops at the first name that is not
    stored, whatever comes after it. *)
Lemma esttab_resolve_first_missing {Model : Type} (se : StoredEstimates.t Model)
  (pre : list string) (n : string) (post : list string) :
  (forall u : string, In u pre -> exists e, StoredEstimates.get se u = Some e) ->
  StoredEstimates.get se n = None ->
  esttab_resolve se (pre ++ n :: post) = inr n.
Proof.
  induction pre as [|x pre IH]; intros Hpre Hn; cbn [app esttab_resolve].
  - now rewrite Hn.
  - destruct (Hpre x (or_introl eq_refl)) as [e ->].
    rewrite IH; [reflexivity | | exact Hn].
    intros u Hu. apply Hpre. now right.
Qed.

(** Without names [cmd_esttab] takes the stored estimates in the order in
    which their names were first stored; storing under a name again does
    not move it. *)
Lemma cmd_esttab_without_names_in_order :
  let se1 := StoredEstimates.store 0 StoredEstimates.init "b" 1 "ols" "y" ["x"] None in
  let se2 := StoredEstimates.store 1 se1 "a" 2 "ols" "y" ["x"] None in
  let se3 := StoredEstimates.store 2 se2 "b" 3 "ols" "y" ["x"] None in
  let names := fun ests (_ : string) => Py.join " " (map fst ests) in
  cmd_esttab names (Gui (∅ : gmap string (list Z)) se2 None) "esttab" = "b a"
  /\ cmd_esttab names (Gui (∅ : gmap string (list Z)) se3 None) "esttab" = "b a"
  /\ cmd_esttab names
       (Gui (∅ : gmap string (list Z)) (StoredEstimates.drop se3 "b") None)
       "esttab" = "a".
Proof. repeat split; vm_compute; reflexivity. Qed.

(** X16. [cmd_esttab] with a list of names is all or nothing.  When every
    name is stored, the table is made of exactly these estimates, in the
    order asked for; when one is missing, the answer is the error that
    names the first missing one, whatever names follow it, and no table
    is made. *)
Theorem cmd_esttab_all_or_first_missing :
  forall (Model Column : Type)
         (table : list (string * StoredEstimates.estimate Model) -> string -> string)
         (self : gui Model Column) (command : string),
    let names := tail (Py.split_ws (fst (split_comma1 command))) in
    let se := _stored_estimates self in
    names <> [] ->
    ((forall n : string, In n names -> exists e, StoredEstimates.get se n = Some e) ->
     exists ests : list (string * StoredEstimates.estimate Model),
       map fst ests = names
       /\ (forall n e, In (n, e) ests -> StoredEstimates.get se n = Some e)
       /\ cmd_esttab table self command
          = table ests (default "" (snd (split_comma1 command))))
    /\ (forall (pre : list string) (n : string) (post : list string),
           names = (pre ++ n :: post)%list ->
           (forall u : string,
               In u pre -> exists e, StoredEstimates.get se u = Some e) ->
           StoredEstimates.get se n = None ->
           cmd_esttab table self command
           = "Error: Estimate '" ++ n ++ "' not found").
Proof.
  intros Model Column table self command names se Hne.
  unfold cmd_esttab. subst names se.
  destruct (split_comma1 command) as [main_part rest]. cbn [fst snd] in *.
  destruct (Py.split_ws main_part) as [|kw names]; [now destruct Hne|].
  cbn [tail] in *. destruct names as [|n1 names]; [now destruct Hne|].
  destruct (decide (1 < length (kw :: n1 :: names))%nat) as [_|Hlen];
    [|cbn in Hlen; lia].
  cbn [tail]. split.
  - intros Hall. destruct (esttab_resolve_all _ _ Hall) as (ests & -> & Hm & Hg).
    now exists ests.
  - intros pre n post Hnames Hpre Hn. rewrite Hnames.
    rewrite (esttab_resolve_first_missing _ pre n post Hpre Hn).
    now destruct (pre ++ n :: post)%list eqn:E; [destruct pre; discriminate E|].
Qed.

Lemma cmd_esttab_all_or_first_missing_witness :
  cmd_esttab (fun _ _ => "table")
    (Gui (∅ : gmap string (list Z))
       (StoredEstimates.store 0 StoredEstimates.init "a" 1 "ols" "y" ["x"] None)
       None)
    "esttab a b c, se"
  = "Error: Estimate 'b' not found".
Proof.
  refine (proj2 (cmd_esttab_all_or_first_missing Z (list Z) (fun _ _ => "table")
                   (Gui ∅ (StoredEstimates.store 0 StoredEstimates.init
                             "a" 1 "ols" "y" ["x"] None) None)
                   "esttab a b c, se" _) ["a"] "b" ["c"] _ _ _).
  - vm_compute. discriminate.
  - vm_compute. reflexivity.
  - intros u [<-|[]]. vm_compute. eauto.
  - reflexivity.
Defined.

Lemma estout_resolve_missing {Model : Type} (se : StoredEstimates.t Model)
  (names : list string) :
  (exists n : string, In n names /\ StoredEstimates.get se n = None) ->
  exists n : string,
    In n names /\ StoredEstimates.get se n = None
    /\ estout_resolve se names = inr n.
Proof.
  induction names as [|x names IH]; intros (n & Hin & Hn); [destruct Hin|].
  simpl. destruct (StoredEstimates.get se x) as [est|] eqn:Hx.
  - destruct Hin as [->|Hin]; [congruence|].
    destruct (IH (ex_intro _ n (conj Hin Hn))) as (n' & Hin' & Hn' & ->).
    exists n'. auto.
  - exists x. auto.
Qed.

Lemma estout_resolve_first_missing {Model : Type} (se : StoredEstimates.t Model)
  (pre : list string) (n : string) (post : list string) :
  (forall u : string, In u pre -> exists e, StoredEstimates.get se u = Some e) ->
  StoredEstimates.get se n = None ->
  estout_resolve se (pre ++ n :: post) = inr n.
Proof.
  induction pre as [|x pre IH]; intros Hpre Hn; cbn [app estout_resolve].
  - now rewrite Hn.
  - destruct (Hpre x (or_introl eq_refl)) as [e ->].
    rewrite IH; [reflexivity | | exact Hn].
    intros u Hu. apply Hpre. now right.
Qed.

(** The names of [cmd_estout] are the words that do not start with a
    comma, in their order. *)
Lemma estout_words_filter (parts : list string) :
  forall (names : list string) (options : gmap string string),
    fst (estout_words parts names options)
    = (names ++ List.filter (fun w => negb (Py.startswith "," w)) parts)%list.
Proof.
  induction parts as [|part parts IH]; intros names options.
  - cbn. now rewrite app_nil_r.
  - cbn [estout_words List.filter]. destruct (Py.startswith "," part).
    + cbn [negb].
      destruct (Py.split_on "=" (Py.drop 1 part)) as [|k [|v [|x l]]];
        apply IH.
    + cbn [negb]. rewrite IH. now rewrite <- app_assoc.
Qed.

(** X17. [cmd_estout] takes as names the words after the keyword that do
    not start with a comma, and it too stops at the first name that is not
    stored: the answer is the error naming that one, whatever names follow
    it, and nothing is shown or written. *)
Theorem cmd_estout_first_missing :
  forall (Model Column : Type)
         (output : list (StoredEstimates.estimate Model) -> list string ->
                   gmap string string -> string)
         (self : gui Model Column) (command : string)
         (pre : list string) (n : string) (post : list string),
    List.filter (fun w => negb (Py.startswith "," w)) (tail (Py.split_ws command))
    = (pre ++ n :: post)%list ->
    (forall u : string,
        In u pre ->
        exists e, StoredEstimates.get (_stored_estimates self) u = Some e) ->
    StoredEstimates.get (_stored_estimates self) n = None ->
    cmd_estout output self command
    = "Error: Estimate '" ++ n ++ "' not found".
Proof.
  intros Model Column output self command pre n post Hnames Hpre Hn.
  unfold cmd_estout.
  destruct (Py.split_ws command) as [|kw [|w ws]].
  - destruct pre; discriminate Hnames.
  - destruct pre; discriminate Hnames.
  - destruct (decide (length (kw :: w :: ws) < 2)%nat) as [Hlen|_];
      [cbn in Hlen; lia|].
    pose proof (estout_words_filter (tail (kw :: w :: ws)) [] ∅) as Hw.
    destruct (estout_words (tail (kw :: w :: ws)) [] ∅) as [ns opts].
    cbn [fst app] in Hw. rewrite Hw, Hnames.
    now rewrite (estout_resolve_first_missing _ pre n post Hpre Hn).
Qed.

Lemma cmd_estout_first_missing_witness :
  cmd_estout (fun _ _ _ => "shown")
    (Gui (∅ : gmap string (list Z))
       (StoredEstimates.store 0 StoredEstimates.init "a" 1 "ols" "y" ["x"] None)
       None)
    "estout a ,using=t.csv b c"
  = "Error: Estimate 'b' not found".
Proof.
  refine (cmd_estout_first_missing Z (list Z) (fun _ _ _ => "shown")
            (Gui ∅ (StoredEstimates.store 0 StoredEstimates.init
                      "a" 1 "ols" "y" ["x"] None) None)
            "estout a ,using=t.csv b c" ["a"] "b" ["c"] _ _ _).
  - vm_compute. reflexivity.
  - intros u [<-|[]]. vm_compute. eauto.
  - reflexivity.
Defined.

(** ** From an estimation to the commands that use it *)

(** The words of [s.split()] are never empty. *)
Lemma split_ws_aux_nonempty (s : string) : forall (cur t : string),
  In t (Py.split_ws_aux cur s) -> t <> "".
Proof.
  induction s as [|c s IH]; intros cur t H.
  - cbn [Py.split_ws_aux] in H. destruct (String.eqb cur "") eqn:E.
    + destruct H.
    + destruct H as [<-|[]]. now apply String.eqb_neq.
  - cbn [Py.split_ws_aux] in H. destruct (Py.isspace c).
    + destruct (String.eqb cur "") eqn:E; [now apply (IH "")|].
      destruct H as [<-|H]; [now apply String.eqb_neq | now apply (IH "")].
    + now apply (IH (cur ++ String c "")).
Qed.

(** X18. [eststo name] after an estimation: the last result is stored
    under that name with the options of the command, the name becomes the
    current one, the data set is untouched, and [coefplot] without a name
    then draws exactly this result under this name. *)
Theorem eststo_then_coefplot :
  forall (Model Column : Type)
         (attr_model_type attr_depvar : Model -> string)
         (attr_indepvars : Model -> list string)
         (now : Z) (self : gui Model Column) (command name : string)
         (m : Model),
    _lastreg self = Some m ->
    nth_error (Py.split_ws (Py.strip (fst (split_comma1 command)))) 1
    = Some name ->
    let r := cmd_eststo attr_model_type attr_depvar attr_indepvars
               now self command in
    snd r = "Estimate stored as '" ++ name ++ "'"
    /\ StoredEstimates.model <$> StoredEstimates.get (_stored_estimates (fst r)) name
       = Some m
    /\ StoredEstimates.current_name (_stored_estimates (fst r)) = Some name
    /\ _df (fst r) = _df self
    /\ cmd_coefplot (fst r) "coefplot"
       = ("Coefficient plot displayed.", [(m, name)]).
Proof.
  intros Model Column amt adv aiv now self command name m Hlast Hname r.
  assert (Hne : name <> "").
  { apply (split_ws_aux_nonempty
             (Py.strip (fst (split_comma1 command))) "" name).
    apply nth_error_In with (n := 1%nat). exact Hname. }
  subst r. unfold cmd_eststo.
  destruct (split_comma1 command) as [part0 part1]. cbn [fst] in Hname.
  destruct (Py.split_ws (Py.strip part0)) as [|kw [|n ws]];
    try discriminate Hname.
  injection Hname as ->. rewrite Hlast. cbn [fst snd _stored_estimates _df].
  split; [reflexivity|].
  unfold StoredEstimates.store, StoredEstimates.get.
  cbn [StoredEstimates.estimates StoredEstimates.current_name].
  rewrite lookup_insert_eq. split; [reflexivity|].
  split; [reflexivity|]. split; [reflexivity|].
  rewrite cmd_coefplot_no_name. unfold current_or_lastreg.
  cbn [_stored_estimates StoredEstimates.current_name].
  rewrite truthy_ne by exact Hne. unfold StoredEstimates.get.
  cbn [StoredEstimates.estimates]. now rewrite lookup_insert_eq.
Qed.

Lemma eststo_then_coefplot_witness :
  cmd_coefplot
    (fst (cmd_eststo (fun _ => "unknown") (fun _ => "unknown") (fun _ => [])
            0 (Gui (∅ : gmap string (list Z)) StoredEstimates.init (Some 7))
            "eststo  m1 , title(first)"))
    "coefplot"
  = ("Coefficient plot displayed.", [(7, "m1")]).
Proof.
  exact (proj2 (proj2 (proj2 (proj2
           (eststo_then_coefplot Z (list Z)
              (fun _ => "unknown") (fun _ => "unknown") (fun _ => [])
              0 (Gui ∅ StoredEstimates.init (Some 7))
              "eststo  m1 , title(first)" "m1" 7 eq_refl eq_refl))))).
Defined.

(** X19. [translate_reghdfe] never changes the active data set, whatever
    the command; and when the fit returns a result, that result is stored
    as [lastreg] with the variables of the command, becomes the current
    estimate and the last result, leaves the other estimates alone, and is
    what [coefplot] without a name draws. *)
Theorem translate_reghdfe_stores_lastreg :
  forall (Model Column : Type) (to_numeric : Column -> Column)
         (ols_fit : gmap string Column -> string -> list string ->
                    option (list string) -> py_result Model)
         (ols_report : Model -> gmap string Column -> string -> list string ->
                       option (list string) -> option (list string) ->
                       py_result string)
         (now : Z) (self : gui Model Column) (command : string),
    let r := translate_reghdfe to_numeric ols_fit ols_report now self command in
    _df (fst r) = _df self
    /\ forall (g : Re.groups) (df : gmap string Column) (results : Model),
        Re.match_ reghdfe_pattern command = Some g ->
        numeric_loop to_numeric (_df self)
          (group g 2 :: Py.split_ws (group g 3)) = Return df ->
        ols_fit df (group g 2) (Py.split_ws (group g 3))
          (split_group (g !! 4%nat)) = Return results ->
        StoredEstimates.get (_stored_estimates (fst r)) "lastreg"
        = Some (StoredEstimates.Estimate results "ols" (group g 2)
                  (Py.split_ws (group g 3)) ∅ now ∅)
        /\ StoredEstimates.current_name (_stored_estimates (fst r))
           = Some "lastreg"
        /\ _lastreg (fst r) = Some results
        /\ (forall other : string,
               other <> "lastreg" ->
               StoredEstimates.get (_stored_estimates (fst r)) other
               = StoredEstimates.get (_stored_estimates self) other)
        /\ cmd_coefplot (fst r) "coefplot"
           = ("Coefficient plot displayed.", [(results, "lastreg")]).
Proof.
  intros. subst r. unfold translate_reghdfe. split.
  - destruct (Re.match_ reghdfe_pattern command) as [g|]; [|reflexivity].
    destruct (numeric_loop _ _ _) as [df|e]; [|reflexivity].
    destruct (ols_fit _ _ _ _) as [results|e]; [|reflexivity].
    now destruct (ols_report _ _ _ _ _ _).
  - intros g df results Hg Hnum Hfit. rewrite Hg, Hnum, Hfit.
    assert (Hfst : forall (x : gui Model Column) (o : py_result string),
               fst (match o with
                    | Return text => (x, text)
                    | Raise e => (x, "Error: " ++ e)
                    end) = x) by (now intros x [text|e]).
    rewrite Hfst.
    cbn [fst _stored_estimates _lastreg].
    unfold StoredEstimates.store, StoredEstimates.get.
    cbn [StoredEstimates.estimates StoredEstimates.current_name].
    rewrite lookup_insert_eq.
    split; [reflexivity|]. split; [reflexivity|]. split; [reflexivity|].
    split; [intros other Hne; now rewrite lookup_insert_ne by congruence|].
    rewrite cmd_coefplot_no_name. unfold current_or_lastreg.
    cbn [_stored_estimates StoredEstimates.current_name].
    change (Py.truthy "lastreg") with true. cbv iota.
    unfold StoredEstimates.get. cbn [StoredEstimates.estimates].
    now rewrite lookup_insert_eq.
Qed.

Lemma translate_reghdfe_stores_lastreg_witness :
  let self : gui Z (list Z) :=
    Gui {[ "y" := [1; 2]; "x" := [3; 4] ]} StoredEstimates.init None in
  cmd_coefplot
    (fst (translate_reghdfe (fun col => col) (fun _ _ _ _ => Return 5)
            (fun _ _ _ _ _ _ => Return "report") 0 self "regress y x"))
    "coefplot"
  = ("Coefficient plot displayed.", [(5, "lastreg")]).
Proof.
  intros self.
  refine (proj2 (proj2 (proj2 (proj2
            (proj2 (translate_reghdfe_stores_lastreg Z (list Z)
                      (fun col => col) (fun _ _ _ _ => Return 5)
                      (fun _ _ _ _ _ _ => Return "report") 0 self "regress y x")
               _ _ 5 _ _ _))))).
  - vm_compute. reflexivity.
  - vm_compute. reflexivity.
  - reflexivity.
Defined.

(** ** Walking through the history *)

Lemma py_index_from_end {A : Type} (l : list A) (i : Z) :
  0 <= i < Z.of_nat (length l) ->
  py_index l (- (i + 1)) = nth_error l (length l - S (Z.to_nat i)).
Proof.
  intros H. unfold py_index.
  destruct (0 <=? - (i + 1)) eqn:E1; [apply Z.leb_le in E1; lia|].
  destruct (- Z.of_nat (length l) <=? - (i + 1)) eqn:E2;
    [|apply Z.leb_gt in E2; lia].
  f_equal. lia.
Qed.

Lemma handle_key_press_safe (command_history : list string) (p : prompt)
  (k : key) :
  nav_inv command_history p ->
  exists p' : prompt,
    handle_key_press command_history p k = Return p'
    /\ nav_inv command_history p'.
Proof.
  unfold nav_inv. intros Hinv.
  assert (Hget : forall i : Z,
             0 <= i < Z.of_nat (length command_history) ->
             exists text, py_index command_history (- (i + 1)) = Some text).
  { intros i Hi. rewrite py_index_from_end by exact Hi.
    destruct (nth_error command_history
                (length command_history - S (Z.to_nat i))) eqn:E;
      [now eexists|].
    apply nth_error_None in E. lia. }
  destruct k; cbn [handle_key_press].
  1,2: destruct (history_index p <? Z.of_nat (length command_history) - 1) eqn:E;
    [apply Z.ltb_lt in E;
     destruct (Hget (history_index p + 1) ltac:(lia)) as [text ->];
     eexists; split; [reflexivity | cbn; lia]
    | eexists; split; [reflexivity | exact Hinv]].
  all: destruct (history_index p >? 0) eqn:E;
    [apply Z.gtb_lt in E;
     destruct (Hget (history_index p - 1) ltac:(lia)) as [text ->];
     eexists; split; [reflexivity | cbn; lia]
    | destruct (history_index p =? 0);
      eexists; (split; [reflexivity | cbn; lia])].
Qed.

(** X20. History navigation is safe: starting from an index between [-1]
    and the last position, no sequence of Up, Down, PageUp and PageDown
    ever reads outside the history, and the index stays in that range. *)
Theorem press_keys_never_out_of_range (command_history : list string)
  (ks : list key) : forall p : prompt,
  nav_inv command_history p ->
  exists p' : prompt,
    press_keys command_history p ks = Return p'
    /\ nav_inv command_history p'.
Proof.
  induction ks as [|k ks IH]; intros p Hinv; [now exists p|].
  cbn [press_keys].
  destruct (handle_key_press_safe command_history p k Hinv) as (p1 & -> & H1).
  now apply IH.
Qed.

Lemma press_keys_never_out_of_range_witness :
  exists p' : prompt,
    press_keys ["use d"; "summarize x"]
      (Prompt (-1) "") [Key_Up; Key_Up; Key_Up; Key_Down; Key_PageDown; Key_Down]
    = Return p'
    /\ nav_inv ["use d"; "summarize x"] p'.
Proof.
  refine (press_keys_never_out_of_range ["use d"; "summarize x"] _
            (Prompt (-1) "") _).
  unfold nav_inv. cbn. lia.
Defined.

Lemma press_up_from (command_history : list string) (k : nat) :
  forall (j : nat) (text0 : string),
    (1 <= k)%nat -> (j + k <= length command_history)%nat ->
    exists text : string,
      nth_error command_history (length command_history - (j + k)) = Some text
      /\ press_keys command_history (Prompt (Z.of_nat j - 1) text0)
           (repeat Key_Up k)
         = Return (Prompt (Z.of_nat (j + k) - 1) text).
Proof.
  induction k as [|k IH]; intros j text0 Hk Hlen; [lia|].
  cbn [repeat press_keys handle_key_press history_index].
  destruct (Z.of_nat j - 1 <? Z.of_nat (length command_history) - 1) eqn:E;
    [|apply Z.ltb_ge in E; lia].
  replace (Z.of_nat j - 1 + 1) with (Z.of_nat j) by lia.
  rewrite py_index_from_end by lia.
  rewrite Nat2Z.id.
  destruct (nth_error command_history (length command_history - S j))
    as [text1|] eqn:Hn; [|apply nth_error_None in Hn; lia].
  destruct k as [|k].
  - exists text1. replace (j + 1)%nat with (S j) by lia.
    split; [exact Hn|]. cbn [repeat press_keys]. do 2 f_equal. lia.
  - replace (Z.of_nat j) with (Z.of_nat (S j) - 1) by lia.
    destruct (IH (S j) text1 ltac:(lia) ltac:(lia)) as (text & Hnth & Hrun).
    exists text. replace (j + S (S k))%nat with (S j + S k)%nat by lia.
    now split.
Qed.

(** X21. Pressing Up [k] times on a fresh prompt recalls the [k]-th most
    recent command, for every [k] up to the length of the history; at the
    oldest command a further Up changes nothing. *)
Theorem press_up_recalls_kth_most_recent (command_history : list string)
  (k : nat) (text0 : string) :
  (1 <= k <= length command_history)%nat ->
  exists text : string,
    nth_error command_history (length command_history - k) = Some text
    /\ press_keys command_history (Prompt (-1) text0) (repeat Key_Up k)
       = Return (Prompt (Z.of_nat k - 1) text)
    /\ (k = length command_history ->
        handle_key_press command_history (Prompt (Z.of_nat k - 1) text) Key_Up
        = Return (Prompt (Z.of_nat k - 1) text)).
Proof.
  intros [Hk Hlen].
  destruct (press_up_from command_history k 0 text0 Hk Hlen)
    as (text & Hnth & Hrun).
  exists text. split; [exact Hnth|]. split; [exact Hrun|].
  intros ->. cbn [handle_key_press history_index].
  now rewrite Z.ltb_irrefl.
Qed.

Lemma press_up_recalls_kth_most_recent_witness :
  exists text : string,
    nth_error ["use d"; "summarize x"; "reg y x"] (3 - 2) = Some text
    /\ press_keys ["use d"; "summarize x"; "reg y x"] (Prompt (-1) "")
         (repeat Key_Up 2)
       = Return (Prompt (Z.of_nat 2 - 1) text)
    /\ (2%nat = length ["use d"; "summarize x"; "reg y x"] ->
        handle_key_press ["use d"; "summarize x"; "reg y x"]
          (Prompt (Z.of_nat 2 - 1) text) Key_Up
        = Return (Prompt (Z.of_nat 2 - 1) text)).
Proof.
  refine (press_up_recalls_kth_most_recent
            ["use d"; "summarize x"; "reg y x"] 2 "" _).
  cbn. lia.
Defined.

(** ** Variables that are no columns *)

Lemma numeric_loop_dom {Column : Type} (to_numeric : Column -> Column)
  (vars : list string) : forall df df' : gmap string Column,
  numeric_loop to_numeric df vars = Return df' -> dom df' = dom df.
Proof.
  induction vars as [|x vars IH]; intros df df' H.
  - now injection H as ->.
  - cbn [numeric_loop] in H. destruct (df !! x) as [col|] eqn:Hx;
      [|discriminate H].
    rewrite (IH _ _ H), dom_insert_L.
    apply subseteq_union_1_L, singleton_subseteq_l, elem_of_dom. eauto.
Qed.

Lemma numeric_loop_first_missing {Column : Type} (to_numeric : Column -> Column)
  (pre : list string) : forall (df : gmap string Column) (v : string)
                               (post : list string),
  (forall u : string, In u pre -> exists col, df !! u = Some col) ->
  df !! v = None ->
  numeric_loop to_numeric df (pre ++ v :: post) = Raise (Py.repr v).
Proof.
  induction pre as [|x pre IH]; intros df v post Hpre Hv.
  - cbn [app numeric_loop]. now rewrite Hv.
  - destruct (Hpre x (or_introl eq_refl)) as [col Hx].
    cbn [app numeric_loop]. rewrite Hx. apply IH.
    + intros u Hu. destruct (decide (x = u)) as [<-|Hne].
      * rewrite lookup_insert_eq. eauto.
      * rewrite lookup_insert_ne by exact Hne. apply Hpre. now right.
    + rewrite lookup_insert_ne; [exact Hv | congruence].
Qed.

(** A printable character other than the two quotes and the backslash
    stands for itself in [repr]. *)
Lemma repr_char_simple (quote c : ascii) :
  simple_char c = true -> Ascii.eqb c quote = false ->
  Py.repr_char quote c = String c "".
Proof.
  unfold simple_char, Py.repr_char. intros H Hq. rewrite Hq.
  apply andb_true_iff in H as [H Hb]. apply andb_true_iff in H as [H Hd].
  apply andb_true_iff in H as [Hp Hs].
  apply negb_true_iff in Hb. rewrite Hb. cbn [orb].
  rewrite Hp.
  unfold Py.isprintable in Hp.
  destruct (Py.code c =? 9)%N eqn:E9;
    [apply N.eqb_eq in E9; rewrite E9 in Hp; discriminate Hp|].
  destruct (Py.code c =? 10)%N eqn:E10;
    [apply N.eqb_eq in E10; rewrite E10 in Hp; discriminate Hp|].
  destruct (Py.code c =? 13)%N eqn:E13;
    [apply N.eqb_eq in E13; rewrite E13 in Hp; discriminate Hp|].
  reflexivity.
Qed.

Lemma repr_body_simple (s : string) :
  str_all simple_char s = true ->
  Py.repr_body "'" s = s ++ "'".
Proof.
  induction s as [|c s IH]; intros H; [reflexivity|].
  cbn [str_all] in H. apply andb_true_iff in H as [Hc Hs].
  cbn [Py.repr_body]. rewrite repr_char_simple, IH; [reflexivity | exact Hs | exact Hc |].
  unfold simple_char in Hc.
  apply andb_true_iff in Hc as [Hc _]. apply andb_true_iff in Hc as [Hc _].
  apply andb_true_iff in Hc as [_ Hc]. now apply negb_true_iff in Hc.
Qed.

Lemma contains_char_simple (s : string) :
  str_all simple_char s = true -> Py.contains_char "'" s = false.
Proof.
  induction s as [|c s IH]; intros H; [reflexivity|].
  cbn [str_all] in H. apply andb_true_iff in H as [Hc Hs].
  cbn [Py.contains_char]. rewrite (IH Hs), orb_false_r.
  unfold simple_char in Hc.
  apply andb_true_iff in Hc as [Hc _]. apply andb_true_iff in Hc as [Hc _].
  apply andb_true_iff in Hc as [_ Hc]. now apply negb_true_iff in Hc.
Qed.

(** [repr] of a text of such characters is the text in single quotes. *)
Lemma repr_simple (s : string) :
  str_all simple_char s = true -> Py.repr s = "'" ++ s ++ "'".
Proof.
  intros H. unfold Py.repr. rewrite (contains_char_simple s H).
  cbn [andb]. now rewrite (repr_body_simple s H).
Qed.

(** X22. The error of [translate_reghdfe] for a missing column names the
    first variable of the command, dependent variable first, that is no
    column of the data set, in the form that [repr] gives it: in single
    quotes when the name is made of printable characters without a quote
    or a backslash, in double quotes when it has a single quote and no
    double quote.  The state is the one from before.  When every variable
    is a column, the numeric conversion succeeds on a copy that has the
    columns of the data set. *)
Theorem translate_reghdfe_names_first_missing_variable :
  forall (Model Column : Type) (to_numeric : Column -> Column)
         (ols_fit : gmap string Column -> string -> list string ->
                    option (list string) -> py_result Model)
         (ols_report : Model -> gmap string Column -> string -> list string ->
                       option (list string) -> option (list string) ->
                       py_result string)
         (now : Z) (self : gui Model Column) (command : string)
         (g : Re.groups),
    Re.match_ reghdfe_pattern command = Some g ->
    let vars := group g 2 :: Py.split_ws (group g 3) in
    (forall (pre post : list string) (v : string),
        vars = (pre ++ v :: post)%list ->
        (forall u : string, In u pre -> exists col, _df self !! u = Some col) ->
        _df self !! v = None ->
        translate_reghdfe to_numeric ols_fit ols_report now self command
        = (self, "Error: " ++ Py.repr v)
        /\ (str_all simple_char v = true -> Py.repr v = "'" ++ v ++ "'"))
    /\ ((forall u : string, In u vars -> exists col, _df self !! u = Some col) ->
        exists df : gmap string Column,
          numeric_loop to_numeric (_df self) vars = Return df
          /\ dom df = dom (_df self))
    /\ Py.repr "x'" = Q ++ "x'" ++ Q
    /\ Py.repr "a\b" = "'a\\b'".
Proof.
  intros Model Column to_numeric ols_fit ols_report now self command g Hg vars.
  split; [|split; [|split; vm_compute; reflexivity]].
  - intros pre post v Hvars Hpre Hv. split; [|apply repr_simple].
    unfold translate_reghdfe. rewrite Hg.
    fold vars. rewrite Hvars.
    now rewrite (numeric_loop_first_missing to_numeric pre _ v post Hpre Hv).
  - intros Hall.
    destruct (numeric_loop to_numeric (_df self) vars) as [df|e] eqn:Hn.
    + exists df. split; [reflexivity|]. exact (numeric_loop_dom _ _ _ _ Hn).
    + exfalso. clear Hg. revert Hall Hn. generalize (_df self).
      induction vars as [|x l IH]; intros d Hall Hn; [discriminate Hn|].
      cbn [numeric_loop] in Hn.
      destruct (Hall x (or_introl eq_refl)) as [col Hx]. rewrite Hx in Hn.
      apply (IH (<[x := to_numeric col]> d)); [|exact Hn].
      intros u Hu. destruct (decide (x = u)) as [<-|Hne].
      * rewrite lookup_insert_eq. eauto.
      * rewrite lookup_insert_ne by exact Hne. apply Hall. now right.
Qed.

Lemma translate_reghdfe_names_first_missing_variable_witness :
  let self : gui Z (list Z) :=
    Gui {[ "y" := [1; 2]; "x1" := [3; 4] ]} StoredEstimates.init None in
  translate_reghdfe (fun col => col) (fun _ _ _ _ => Return 0)
    (fun _ _ _ _ _ _ => Return "report") 0 self "reg y x1 x' x3"
  = (self, "Error: " ++ Q ++ "x'" ++ Q).
Proof.
  intros self.
  refine (proj1 (proj1 (translate_reghdfe_names_first_missing_variable Z (list Z)
                   (fun col => col) (fun _ _ _ _ => Return 0)
                   (fun _ _ _ _ _ _ => Return "report") 0 self "reg y x1 x' x3"
                   _ _)
            ["y"; "x1"] ["x3"] "x'" _ _ _)).
  - vm_compute. reflexivity.
  - vm_compute. reflexivity.
  - intros u [<-|[<-|[]]]; vm_compute; eauto.
  - reflexivity.
Defined.

(** ** An empty registry of estimates *)

Lemma coefplot_models_clear {Model : Type} (se : StoredEstimates.t Model)
  (names : list string) :
  coefplot_models (StoredEstimates.clear se) names = [].
Proof.
  induction names as [|n names IH]; [reflexivity|].
  cbn [coefplot_models]. unfold StoredEstimates.get, StoredEstimates.clear,
    StoredEstimates.init. cbn [StoredEstimates.estimates].
  now rewrite lookup_empty.
Qed.

(** X23. After [clear] nothing is left to show: [coefplot], whatever its
    arguments, answers that no stored models were found and draws nothing,
    and [esttab] without names answers that there are no estimates to
    display; no current name is left either. *)
Theorem nothing_to_show_after_clear :
  forall (Model Column : Type)
         (table : list (string * StoredEstimates.estimate Model) -> string -> string)
         (se : StoredEstimates.t Model) (df : gmap string Column)
         (lastreg : option Model) (command : string),
    let self := Gui df (StoredEstimates.clear se) lastreg in
    cmd_coefplot self command
    = ("No stored models found. Run regressions first.", [])
    /\ cmd_esttab table self "esttab"
       = "Error: No estimates to display. Run regressions and store them with eststo first."
    /\ StoredEstimates.current_name (StoredEstimates.clear se) = None.
Proof.
  intros. subst self. split; [|split; [|reflexivity]].
  - unfold cmd_coefplot. cbn [_stored_estimates].
    now rewrite coefplot_models_clear.
  - unfold cmd_esttab. cbn. reflexivity.
Qed.
